(** * FlashDraft: the ML bot service (src/backend/services/ml_bot_service.py)

    A shallow embedding of [MLBotService] and of the few Python, NumPy and
    [random] builtins it calls, followed by the properties of the pick
    decision engine.

    Conventions of the embedding.
    - A Python value is a [pyval]; a card is a dictionary from strings to
      values, [gmap string pyval].
    - A Python [float] is an exact rational ([Q]): rounding, infinities and
      NaN are outside the model.  Two scores are the same number when they
      are [==].
    - Strings are byte strings and [str.lower] lowers the ASCII letters.
    - A call either returns or raises: [result A].
    - The two random generators ([random] and [numpy.random]) are read
      through two oracles indexed by a cursor kept in the [World].
    - A file is named by its path as [pathlib] builds it on a POSIX system,
      from the models directory on.  The file system is case-sensitive;
      links and [..] components, which only the operating system resolves,
      are outside the model. *)

From Stdlib Require Import QArith Qminmax Lqa ZArith Lia Permutation.
From Stdlib Require Import Ascii String.
From Stdlib Require Import Sorting.Sorted.
From stdpp Require Import gmap strings list fin_maps sorting.

Set Default Proof Using "Type".
Open Scope string_scope.

(** ** Python values, exceptions and results *)

Module Py.

#[warnings="-register-all"]
Inductive pyval : Type :=
| VNone
| VBool (b : bool)
| VInt (z : Z)
| VFloat (q : Q)
| VStr (s : string)
| VList (l : list pyval)
| VSet (l : list pyval)
| VDict (d : gmap string pyval).

(** The exceptions the service can meet.  [OtherError] stands for whatever
    an artifact's scaler or model raises on its own. *)
Inductive exn : Type :=
| TypeError
| ValueError
| AttributeError
| KeyError
| IndexError
| OverflowError
| ZeroDivisionError
| OtherError (name : string).

Inductive result (A : Type) : Type :=
| Ok (a : A)
| Raise (e : exn).
Arguments Ok {A} a.
Arguments Raise {A} e.

Definition bind {A B} (r : result A) (k : A → result B) : result B :=
  match r with
  | Ok a => k a
  | Raise e => Raise e
  end.

Definition returns {A} (r : result A) : Prop := ∃ a, r = Ok a.

Definition raises {A} (r : result A) : Prop := ∃ e, r = Raise e.

(** [try: r  except (ValueError, TypeError): d] *)
Definition except_value_type {A} (r : result A) (d : A) : result A :=
  match r with
  | Raise ValueError | Raise TypeError => Ok d
  | other => other
  end.

(** [d.get(key, dflt)] on a dictionary with string keys *)
Definition get (d : gmap string pyval) (key : string) (dflt : pyval) : pyval :=
  default dflt (d !! key).

(** Lists, sets and dictionaries are unhashable. *)
Definition hashable (v : pyval) : bool :=
  match v with
  | VList _ | VSet _ | VDict _ => false
  | _ => true
  end.

(** [table.get(key, dflt)] where the table has string keys and the key is
    any value: hashing an unhashable key raises, a key that is not a string
    equals none of the table's keys. *)
Definition table_get {A} (table : gmap string A) (key : pyval) (dflt : A)
  : result A :=
  match key with
  | VStr s => Ok (default dflt (table !! s))
  | VList _ | VSet _ | VDict _ => Raise TypeError
  | _ => Ok dflt
  end.

(** Integers from [FLOAT_INT_LIMIT] on round to 2^1024 and do not convert. *)
Definition FLOAT_INT_LIMIT : Z := 2 ^ 1024 - 2 ^ 970.

(** [float(v)].  [parse] is the builtin's reading of a string literal:
    [Some q] when the text denotes [q], [None] when it raises ValueError. *)
Definition float (parse : string → option Q) (v : pyval) : result Q :=
  match v with
  | VNone => Raise TypeError
  | VBool b => Ok (if b then 1 else 0)%Q
  | VInt z =>
      if (Z.abs z <? FLOAT_INT_LIMIT)%Z then Ok (inject_Z z)
      else Raise OverflowError
  | VFloat q => Ok q
  | VStr s =>
      match parse s with
      | Some q => Ok q
      | None => Raise ValueError
      end
  | VList _ | VSet _ | VDict _ => Raise TypeError
  end.

(** *** Strings *)

Definition lower_ascii (c : ascii) : ascii :=
  let n := nat_of_ascii c in
  if (65 <=? n)%nat && (n <=? 90)%nat then ascii_of_nat (n + 32) else c.

Fixpoint lower (s : string) : string :=
  match s with
  | EmptyString => EmptyString
  | String c rest => String (lower_ascii c) (lower rest)
  end.

(** [v.lower()]: only strings have the method. *)
Definition lower_method (v : pyval) : result string :=
  match v with
  | VStr s => Ok (lower s)
  | _ => Raise AttributeError
  end.

(** [needle in hay] on strings *)
Fixpoint contains (needle hay : string) : bool :=
  String.prefix needle hay ||
  match hay with
  | EmptyString => false
  | String _ rest => contains needle rest
  end.

(** *** Truth value, [len], [set] *)

Definition truthy (v : pyval) : bool :=
  match v with
  | VNone => false
  | VBool b => b
  | VInt z => negb (z =? 0)%Z
  | VFloat q => negb (Qeq_bool q 0)
  | VStr s => negb (String.eqb s "")
  | VList l | VSet l => negb (Nat.eqb (length l) 0)
  | VDict d => negb (Nat.eqb (size d) 0)
  end.

(** The number a hashable value compares as, when it is a number. *)
Definition as_number (v : pyval) : option Q :=
  match v with
  | VBool b => Some (if b then 1 else 0)%Q
  | VInt z => Some (inject_Z z)
  | VFloat q => Some q
  | _ => None
  end.

(** [a == b] on hashable values: numbers by value ([True == 1 == 1.0]),
    strings by content, [None] with itself. *)
Definition key_eqb (a b : pyval) : bool :=
  match as_number a, as_number b with
  | Some x, Some y => Qeq_bool x y
  | None, None =>
      match a, b with
      | VNone, VNone => true
      | VStr s, VStr t => String.eqb s t
      | _, _ => false
      end
  | _, _ => false
  end.

Definition mem (x : pyval) (l : list pyval) : bool := existsb (key_eqb x) l.

(** Keep the first occurrence of every element. *)
Fixpoint dedup_keys (seen l : list pyval) : list pyval :=
  match l with
  | [] => []
  | x :: rest =>
      if mem x seen then dedup_keys seen rest
      else x :: dedup_keys (x :: seen) rest
  end.

Definition chars (s : string) : list pyval :=
  map (λ c, VStr (String c EmptyString)) (list_ascii_of_string s).

(** [set(v)]: the elements of an iterable, without repetition; raises on a
    value that is not iterable and on an unhashable element. *)
Definition set_of (v : pyval) : result (list pyval) :=
  match v with
  | VList l =>
      if forallb hashable l then Ok (dedup_keys [] l) else Raise TypeError
  | VSet l => Ok l
  | VStr s => Ok (dedup_keys [] (chars s))
  | VDict d => Ok (map (λ kv, VStr kv.1) (map_to_list d))
  | VNone | VBool _ | VInt _ | VFloat _ => Raise TypeError
  end.

(** [s.intersection(other)]: a method of sets only. *)
Definition intersection_method (s : pyval) (other : list pyval)
  : result (list pyval) :=
  match s with
  | VSet l => Ok (List.filter (λ x, mem x other) l)
  | _ => Raise AttributeError
  end.

(** *** NumPy and [random] *)

(** [np.array(features).reshape(1, -1)] on a list of Python numbers: one row
    of floats. *)
Definition np_row (features : list pyval) : list (list Q) :=
  [omap as_number features].

(** [np.clip(x, lo, hi)] is [minimum(maximum(x, lo), hi)]. *)
Definition np_clip (x lo hi : Q) : Q := Qmin (Qmax x lo) hi.

(** [random.uniform(a, b)] is [a + (b - a) * random()]. *)
Definition random_uniform (a b r : Q) : Q := (a + (b - a) * r)%Q.

(** [itertools.accumulate(weights)]: the running sums. *)
Fixpoint running (acc : Q) (weights : list Q) : list Q :=
  match weights with
  | [] => []
  | x :: rest => (acc + x)%Q :: running (acc + x)%Q rest
  end.

Definition accumulate (weights : list Q) : list Q :=
  match weights with
  | [] => []
  | x :: rest => x :: running x rest
  end.

(** [bisect.bisect_right(a, x, lo, hi)] on an ascending list: the first
    position from [lo] on, below [hi], whose element exceeds [x], and [hi]
    when there is none.  [a] is given from position [lo] on. *)
Fixpoint bisect_right (a : list Q) (x : Q) (lo hi : nat) : nat :=
  match a with
  | [] => lo
  | y :: rest =>
      if (hi <=? lo)%nat then lo
      else if Qlt_le_dec x y then lo
      else bisect_right rest x (S lo) hi
  end.

(** [random.choices(population, weights=weights)[0]] with the draw [r] of
    [random()]: the cumulative weights are bisected at [r * total]. *)
Definition random_choices {A} (population : list A) (weights : list Q) (r : Q)
  : result A :=
  let cum_weights := accumulate weights in
  if negb (length cum_weights =? length population)%nat then Raise ValueError
  else
    match last cum_weights with
    | None => Raise IndexError
    | Some total =>
        if Qlt_le_dec 0 total then
          let i := bisect_right cum_weights (r * total) 0 (length population - 1) in
          match population !! i with
          | Some x => Ok x
          | None => Raise IndexError
          end
        else Raise ValueError
    end.

(** [l.sort(key=key, reverse=True)].  The sort is stable and compares keys
    with [<] only; it is written here as the insertion of every element, left
    to right, after the elements that are not greater.  With [reverse=True]
    CPython reverses the list before and after the sort, which keeps equal
    keys in their first order. *)
Fixpoint insert_by {A} (key : A → Q) (x : A) (sorted : list A) : list A :=
  match sorted with
  | [] => [x]
  | y :: rest =>
      if Qlt_le_dec (key x) (key y) then x :: y :: rest
      else y :: insert_by key x rest
  end.

Definition sort_by {A} (key : A → Q) (l : list A) : list A :=
  fold_left (λ sorted x, insert_by key x sorted) l [].

Definition sort_by_reverse {A} (key : A → Q) (l : list A) : list A :=
  rev (sort_by key (rev l)).

End Py.

(** ** Paths *)

Module Pathlib.

(** [s.split(sep)] for a separator of one character *)
Fixpoint split (sep : ascii) (s : string) : list string :=
  match s with
  | EmptyString => [EmptyString]
  | String c rest =>
      if Ascii.eqb c sep then EmptyString :: split sep rest
      else
        match split sep rest with
        | part :: others => String c part :: others
        | [] => [String c EmptyString]
        end
  end.

(** The components [pathlib] keeps of one segment: the stretches between
    the slashes, without the empty ones and without ['.']. *)
Definition components (segment : string) : list string :=
  List.filter (λ part, negb (String.eqb part "") && negb (String.eqb part "."))
    (split "/" segment).

(** A path as [pathlib] compares it.  The service and the training script
    both build their paths from [MODELS_DIR], the directory [data/models]
    of the repository; a path is kept from that directory on, until a
    segment that starts with a slash replaces all that came before
    ([anchored]). *)
Record path : Type := {
  anchored : bool;
  parts : list string;
}.

#[global] Instance path_eq_dec : EqDecision path.
Proof. solve_decision. Defined.

Definition MODELS_DIR : path := {| anchored := false; parts := [] |}.

(** [p / segment]: a segment that starts with a slash starts anew at the
    root (two leading slashes name the root as well on Linux), any other
    segment adds its components. *)
Definition joinpath (p : path) (segment : string) : path :=
  if String.prefix "/" segment
  then {| anchored := true; parts := components segment |}
  else {| anchored := anchored p; parts := parts p ++ components segment |}.

End Pathlib.

(** ** The service *)

Module Service.
Import Py.

(** One entry of [BOT_PERSONALITIES], also the ['config'] of an artifact. *)
Record Config : Type := {
  name : string;
  skill_level : Q;
  randomness : Q;
  rare_bias : Q;
  color_commitment : Q;
}.

Definition bronze : Config :=
  {| name := "Bronze Bot"; skill_level := 0.3; randomness := 0.4;
     rare_bias := 1.5; color_commitment := 0.5 |}.
Definition silver : Config :=
  {| name := "Silver Bot"; skill_level := 0.5; randomness := 0.3;
     rare_bias := 1.2; color_commitment := 0.7 |}.
Definition gold : Config :=
  {| name := "Gold Bot"; skill_level := 0.7; randomness := 0.2;
     rare_bias := 1.0; color_commitment := 0.85 |}.
Definition mythic : Config :=
  {| name := "Mythic Bot"; skill_level := 0.9; randomness := 0.1;
     rare_bias := 0.9; color_commitment := 0.95 |}.

Definition BOT_PERSONALITIES : gmap string Config :=
  list_to_map
    [("bronze", bronze); ("silver", silver); ("gold", gold); ("mythic", mythic)].

(** The feature columns of the training script (create_training_data), in
    the order extract_features fills them. *)
Definition FEATURE_ORDER : list string :=
  ["cmc"; "is_creature"; "is_instant"; "is_sorcery"; "is_enchantment";
   "is_artifact"; "is_land"; "rarity_score"; "power_num"; "toughness_num";
   "num_colors"].

(** The object a model file unpickles to, as the service uses it.  For the
    dictionary pickled by the training script (create_bot_personalities)
    the three subscripts of lines 125-127 succeed ([keys]) and give the
    model, the scaler and the profile; the scaler and the model are opaque
    callables on a matrix of rows, and either may raise.  For any other
    object [keys] is what the subscripts raise: TypeError on an object that
    is no dictionary, KeyError on a dictionary without one of the keys; the
    other fields are then never read. *)
Record Artifact : Type := {
  keys : result unit;
  base_model : list (list Q) → result (list Q);
  scaler : list (list Q) → result (list (list Q));
  config : Config;
  (** Modelled from the spec: the feature order a ScoringArtifact expects
      (spec §3).  The pickled dictionary has no such key and the service
      reads none; the training script writes the list to metadata.json. *)
  feature_order : list string;
}.

(** The same artifact, expecting another feature order. *)
Definition reordered (order : list string) (a : Artifact) : Artifact :=
  {| keys := keys a; base_model := base_model a; scaler := scaler a;
     config := config a; feature_order := order |}.

(** What is found at a model path: no file, a file that [pickle.load]
    fails on, or a file that unpickles to an object. *)
Inductive file : Type :=
| Missing
| Unreadable
| Pickled (a : Artifact).

(** The surroundings of a call: the string reader of [float], the draws of
    [random.random()] and the standard normal draws behind
    [np.random.normal], both by position, and the models directory. *)
Record Env : Type := {
  parse_float : string → option Q;
  py_random : nat → Q;
  np_normal : nat → Q;
  disk : Pathlib.path → file;
}.

(** The service object and the positions of the two generators.  [loads]
    counts the calls of [pickle.load]. *)
Record World : Type := {
  loaded_models : gmap string (gmap string Artifact);
  py_cursor : nat;
  np_cursor : nat;
  loads : nat;
}.

(** Calls that read or change the world and may raise. *)
Definition M (A : Type) : Type := World → result A * World.

Definition ret {A} (a : A) : M A := λ w, (Ok a, w).

Definition raise {A} (e : exn) : M A := λ w, (Raise e, w).

Definition lift {A} (r : result A) : M A := λ w, (r, w).

Definition mbindM {A B} (m : M A) (k : A → M B) : M B :=
  λ w, match m w with
       | (Ok a, w') => k a w'
       | (Raise e, w') => (Raise e, w')
       end.

#[global] Instance result_mbind : MBind result := λ A B k r, bind r k.
#[global] Instance M_mbind : MBind M := λ A B k m, mbindM m k.

(** The world after one draw of [random.random()]. *)
Definition rolled (w : World) : World :=
  {| loaded_models := loaded_models w; py_cursor := S (py_cursor w);
     np_cursor := np_cursor w; loads := loads w |}.

(** The world after one draw of [numpy.random]. *)
Definition drawn (w : World) : World :=
  {| loaded_models := loaded_models w; py_cursor := py_cursor w;
     np_cursor := S (np_cursor w); loads := loads w |}.

(** [random.random()] *)
Definition random_random (E : Env) : M Q :=
  λ w, (Ok (py_random E (py_cursor w)), rolled w).

(** The standard normal draw behind one [np.random.normal] call. *)
Definition np_draw (E : Env) : M Q :=
  λ w, (Ok (np_normal E (np_cursor w)), drawn w).

(** [np.random.normal(loc, scale)]: a negative scale is refused before any
    draw, otherwise a standard normal draw is scaled and shifted. *)
Definition np_random_normal (E : Env) (loc scale : Q) : M Q :=
  if Qlt_le_dec scale 0 return M Q then raise ValueError
  else z ← np_draw E; ret (loc + scale * z)%Q.

Definition cached (w : World) (set_code bot_personality : string)
  : option Artifact :=
  m ← loaded_models w !! set_code; m !! bot_personality.

(** [MODELS_DIR / set_code.lower() / f"{bot_personality}_bot.pkl"] *)
Definition model_path (set_code bot_personality : string) : Pathlib.path :=
  Pathlib.joinpath (Pathlib.joinpath Pathlib.MODELS_DIR (lower set_code))
    (bot_personality ++ "_bot.pkl").

Definition store (w : World) (set_code bot_personality : string) (a : Artifact)
  : World :=
  {| loaded_models :=
       <[set_code := <[bot_personality := a]>
                       (default ∅ (loaded_models w !! set_code))]>
         (loaded_models w);
     py_cursor := py_cursor w; np_cursor := np_cursor w;
     loads := S (loads w) |}.

Definition count_load (w : World) : World :=
  {| loaded_models := loaded_models w; py_cursor := py_cursor w;
     np_cursor := np_cursor w; loads := S (loads w) |}.

(** load_bot_model (lines 26-57): a missing file returns False before any
    read; a file that does not unpickle is caught and returns False; the
    object of a file that unpickles is stored under [set_code] and the
    personality, whatever it is. *)
Definition load_bot_model (E : Env) (set_code bot_personality : string)
  : M bool :=
  λ w, match disk E (model_path set_code bot_personality) with
       | Missing => (Ok false, w)
       | Unreadable => (Ok false, count_load w)
       | Pickled model_data => (Ok true, store w set_code bot_personality model_data)
       end.

Definition indicator (b : bool) : pyval := VInt (if b then 1 else 0).

Definition rarity_map : gmap string Z :=
  list_to_map [("common", 1); ("uncommon", 2); ("rare", 3); ("mythic", 4)]%Z.

Definition len_if_list (v : pyval) : nat :=
  match v with
  | VList l => length l
  | _ => 0
  end.

(** extract_features (lines 59-102).  Only the two stats are converted
    under [try]/[except]. *)
Definition extract_features (E : Env) (card : gmap string pyval)
  : result (list (list Q)) :=
  cmc ← float (parse_float E) (get card "cmc" (VInt 0));
  type_line ← lower_method (get card "type_line" (VStr ""));
  let rarity := get card "rarity" (VStr "common") in
  rarity_score ← table_get rarity_map rarity 1%Z;
  power ← except_value_type
            (float (parse_float E) (get card "power" (VInt 0))) 0%Q;
  toughness ← except_value_type
                (float (parse_float E) (get card "toughness" (VInt 0))) 0%Q;
  let color_identity := get card "color_identity" (VList []) in
  Ok (np_row
        [VFloat cmc;
         indicator (contains "creature" type_line);
         indicator (contains "instant" type_line);
         indicator (contains "sorcery" type_line);
         indicator (contains "enchantment" type_line);
         indicator (contains "artifact" type_line);
         indicator (contains "land" type_line);
         VInt rarity_score;
         VFloat power;
         VFloat toughness;
         VInt (Z.of_nat (len_if_list color_identity))]).

Definition rarity_scores : gmap string Z :=
  list_to_map [("common", 40); ("uncommon", 55); ("rare", 70); ("mythic", 85)]%Z.

Definition REMOVAL_WORDS : list string :=
  ["destroy"; "exile"; "damage"; "counter"].

Definition personality_multipliers : gmap string Q :=
  list_to_map [("bronze", 0.8); ("silver", 0.9); ("gold", 1.0); ("mythic", 1.1)]%Q.

(** The rule-based score before the noise: an integer until the multiplier
    makes it a float. *)
Definition fallback_rules (card : gmap string pyval) (bot_personality : string)
  : result Q :=
  score ← table_get rarity_scores (get card "rarity" (VStr "common")) 40%Z;
  type_line ← lower_method (get card "type_line" (VStr ""));
  let score := if contains "creature" type_line then (score + 5)%Z else score in
  oracle_text ← lower_method (get card "oracle_text" (VStr ""));
  let score :=
    if existsb (λ word, contains word oracle_text) REMOVAL_WORDS
    then (score + 10)%Z else score in
  Ok (inject_Z score * default 1.0 (personality_multipliers !! bot_personality))%Q.

(** _fallback_evaluation (lines 177-211) *)
Definition _fallback_evaluation (E : Env) (card : gmap string pyval)
    (bot_personality : string) : M Q :=
  score ← lift (fallback_rules card bot_personality);
  r ← random_random E;
  let score := (score + random_uniform (-10) 10 r)%Q in
  ret (np_clip score 0 100).

(** [card.get('rarity') in ['rare', 'mythic']] *)
Definition rare_or_mythic (card : gmap string pyval) : bool :=
  let rarity := get card "rarity" VNone in
  key_eqb rarity (VStr "rare") || key_eqb rarity (VStr "mythic").

(** The color commitment bonus of _apply_personality (lines 164-173), [0]
    when a guard of the source skips it.  The set of the card's colors is
    built as soon as the context has picked colors. *)
Definition commitment_bonus (card : gmap string pyval) (config : Config)
    (context : option (gmap string pyval)) : result Q :=
  match context with
  | None => Ok 0%Q
  | Some ctx =>
      if negb (size ctx =? 0)%nat then
        match ctx !! "picked_colors" with
        | None => Ok 0%Q
        | Some picked_colors =>
            card_colors ← set_of (get card "color_identity" (VList []));
            if truthy picked_colors && negb (length card_colors =? 0)%nat then
              common ← intersection_method picked_colors card_colors;
              let color_match :=
                (inject_Z (Z.of_nat (length common))
                 / inject_Z (Z.of_nat (length card_colors)))%Q in
              Ok (color_match * color_commitment config * 10)%Q
            else Ok 0%Q
        end
      else Ok 0%Q
  end.

(** _apply_personality (lines 145-175) *)
Definition _apply_personality (E : Env) (base_score : Q)
    (card : gmap string pyval) (config : Config)
    (context : option (gmap string pyval)) : M Q :=
  let score := base_score in
  let optimal_adjustment := ((100 - base_score) * (1 - skill_level config) * 0.3)%Q in
  let score := (score + optimal_adjustment)%Q in
  let score := if rare_or_mythic card then (score * rare_bias config)%Q else score in
  noise ← np_random_normal E 0 (randomness config * 20);
  let score := (score + noise)%Q in
  bonus ← lift (commitment_bonus card config context);
  ret (score + bonus)%Q.

(** [a[0]] *)
Definition first (a : list Q) : result Q :=
  match a with
  | [] => Raise IndexError
  | x :: _ => Ok x
  end.

(** Lines 124-143 of predict_pick_value: the path with a model. *)
Definition predict_with_model (E : Env) (model_data : Artifact)
    (card : gmap string pyval) (context : option (gmap string pyval)) : M Q :=
  _ ← lift (keys model_data);
  features ← lift (extract_features E card);
  features_scaled ← lift (scaler model_data features);
  prediction ← lift (base_model model_data features_scaled);
  base_score ← lift (first prediction);
  adjusted_score ← _apply_personality E base_score card (config model_data) context;
  ret (np_clip adjusted_score 0 100).

Definition lookup_model (set_code bot_personality : string) : M Artifact :=
  λ w, match cached w set_code bot_personality with
       | Some model_data => (Ok model_data, w)
       | None => (Raise KeyError, w)
       end.

Definition is_cached (set_code bot_personality : string) : M bool :=
  λ w, (Ok (bool_decide (is_Some (cached w set_code bot_personality))), w).

(** predict_pick_value (lines 104-143): a key that is not cached is loaded;
    when the load fails the Fallback Evaluator answers, otherwise the stored
    artifact is read back and used. *)
Definition predict_pick_value (E : Env) (card : gmap string pyval)
    (set_code bot_personality : string) (context : option (gmap string pyval))
  : M Q :=
  hit ← is_cached set_code bot_personality;
  loaded ← (if (hit : bool) return M bool then ret true
            else load_bot_model E set_code bot_personality);
  if (loaded : bool) return M Q then
    model_data ← lookup_model set_code bot_personality;
    predict_with_model E model_data card context
  else _fallback_evaluation E card bot_personality.

(** The loop of get_pick_rankings (lines 223-225), from position [i] on. *)
Fixpoint rank_from (E : Env) (i : nat) (cards : list (gmap string pyval))
    (set_code bot_personality : string) (context : option (gmap string pyval))
  : M (list (nat * Q)) :=
  match cards with
  | [] => ret []
  | card :: rest =>
      score ← predict_pick_value E card set_code bot_personality context;
      rankings ← rank_from E (S i) rest set_code bot_personality context;
      ret ((i, score) :: rankings)
  end.

(** get_pick_rankings (lines 213-230) *)
Definition get_pick_rankings (E : Env) (cards : list (gmap string pyval))
    (set_code bot_personality : string) (context : option (gmap string pyval))
  : M (list (nat * Q)) :=
  rankings ← rank_from E 0 cards set_code bot_personality context;
  ret (sort_by_reverse snd rankings).

(** [rankings[i][0]] *)
Definition index_of (rankings : list (nat * Q)) (i : nat) : result nat :=
  match rankings !! i with
  | Some entry => Ok entry.1
  | None => Raise IndexError
  end.

(** Lines 245-256 of choose_pick: the draw among the ranked cards. *)
Definition select (E : Env) (rankings : list (nat * Q)) (bot_personality : string)
  : M nat :=
  let config := default silver (BOT_PERSONALITIES !! bot_personality) in
  r ← random_random E;
  if Qlt_le_dec r (skill_level config) then lift (index_of rankings 0)
  else
    let pick_range := Nat.min 3 (length rankings) in
    let weights := take pick_range [0.6; 0.3; 0.1]%Q in
    r' ← random_random E;
    choice_idx ← lift (random_choices (seq 0 pick_range) weights r');
    lift (index_of rankings choice_idx).

(** choose_pick (lines 232-256) *)
Definition choose_pick (E : Env) (cards : list (gmap string pyval))
    (set_code bot_personality : string) (context : option (gmap string pyval))
  : M nat :=
  rankings ← get_pick_rankings E cards set_code bot_personality context;
  match rankings return M nat with
  | [] => ret 0%nat
  | _ => select E rankings bot_personality
  end.

End Service.

(** ** Callers that interleave *)

Module Interleaved.
Import Py Service.

(** Several callers of predict_pick_value for one key share the service.
    A caller first tests the cache (line 119) and, on a miss, calls
    load_bot_model (line 120); nothing in the service makes the two one
    step, so the steps of different callers may alternate.  [Entering] has
    tested nothing yet, [Missed] has found the key absent and has not
    loaded yet, [Served] is past line 120. *)
Inductive stage : Type :=
| Entering
| Missed
| Served.

Record Pool : Type := {
  world : World;
  callers : list stage;
}.

(** Caller [i] takes its next step. *)
Definition step (E : Env) (set_code bot_personality : string) (i : nat)
    (p : Pool) : Pool :=
  match callers p !! i with
  | Some Entering =>
      match is_cached set_code bot_personality (world p) with
      | (Ok true, w) => {| world := w; callers := <[i := Served]> (callers p) |}
      | (_, w) => {| world := w; callers := <[i := Missed]> (callers p) |}
      end
  | Some Missed =>
      {| world := (load_bot_model E set_code bot_personality (world p)).2;
         callers := <[i := Served]> (callers p) |}
  | _ => p
  end.

(** The callers step in the order of the schedule. *)
Definition run (E : Env) (set_code bot_personality : string)
    (schedule : list nat) (p : Pool) : Pool :=
  fold_left (λ p i, step E set_code bot_personality i p) schedule p.

End Interleaved.

(** ** What the specification says, in its own words *)

Module Spec.
Import Py Service.

(** A case-insensitive substring test: some stretch of the text reads as
    the word once both are lowered. *)
Definition ci_occurs (word text : string) : Prop :=
  ∃ pre mid post, text = pre ++ mid ++ post ∧ lower mid = lower word.

(** A 0/1 indicator of a property. *)
Definition indicates (x : Q) (P : Prop) : Prop :=
  (P ∧ x = 1%Q) ∨ (¬ P ∧ x = 0%Q).

(** A bonus granted when a property holds. *)
Definition grants (bonus amount : Z) (P : Prop) : Prop :=
  (P ∧ bonus = amount) ∨ (¬ P ∧ bonus = 0%Z).

(** The ordinal of a rarity: common=1, uncommon=2, rare=3, mythic=4,
    anything else 1. *)
Definition rarity_ordinal (rarity : pyval) : Z :=
  match rarity with
  | VStr s =>
      if String.eqb s "uncommon" then 2
      else if String.eqb s "rare" then 3
      else if String.eqb s "mythic" then 4
      else 1
  | _ => 1
  end.

(** The base score of a rarity: common=40, uncommon=55, rare=70, mythic=85,
    anything else as common. *)
Definition rarity_base (rarity : pyval) : Z :=
  match rarity with
  | VStr s =>
      if String.eqb s "uncommon" then 55
      else if String.eqb s "rare" then 70
      else if String.eqb s "mythic" then 85
      else 40
  | _ => 40
  end.

(** bronze=0.8, silver=0.9, gold=1.0, mythic=1.1, anything else 1.0 *)
Definition personality_scalar (personality : string) : Q :=
  if String.eqb personality "bronze" then 0.8
  else if String.eqb personality "silver" then 0.9
  else if String.eqb personality "mythic" then 1.1
  else 1.0.

(** A stat as a float, 0.0 when it is missing or does not read as one. *)
Definition stat_or_zero (E : Env) (card : gmap string pyval) (key : string) : Q :=
  match card !! key with
  | None => 0
  | Some v =>
      match float (parse_float E) v with
      | Ok q => q
      | Raise _ => 0
      end
  end.

(** The number of distinct colors, 0 when the colors are absent or are not
    a list. *)
Definition distinct_colors (card : gmap string pyval) : nat :=
  match card !! "color_identity" with
  | Some (VList l) => length (dedup_keys [] l)
  | _ => 0
  end.

(** The number of entries of the color list, repetitions included. *)
Definition listed_colors (card : gmap string pyval) : nat :=
  match card !! "color_identity" with
  | Some (VList l) => length l
  | _ => 0
  end.

(** [v] is [x] clipped to the interval from [lo] to [hi]. *)
Definition clipped (x lo hi v : Q) : Prop :=
  (lo <= v <= hi)%Q ∧
  ((lo <= x <= hi)%Q → v == x) ∧
  ((x < lo)%Q → v == lo) ∧
  ((hi < x)%Q → v == hi).

(** The position of a pair in a ranking: higher score first, and among
    equal scores the smaller original index first. *)
Definition ranked_before (a b : nat * Q) : Prop :=
  (b.2 < a.2)%Q ∨ (a.2 == b.2 ∧ (a.1 < b.1)%nat).

(** The rarity is rare or mythic. *)
Definition favoured (card : gmap string pyval) : bool :=
  match card !! "rarity" with
  | Some (VStr s) => String.eqb s "rare" || String.eqb s "mythic"
  | _ => false
  end.

(** The color set of an item: the distinct entries of its color list. *)
Definition item_colors (card : gmap string pyval) : list pyval :=
  match card !! "color_identity" with
  | Some (VList l) => dedup_keys [] l
  | _ => []
  end.

(** The committed-color set a draft context provides, empty when there is
    no context or it provides none. *)
Definition committed (context : option (gmap string pyval)) : list pyval :=
  match context with
  | Some ctx =>
      match ctx !! "picked_colors" with
      | Some (VSet l) => l
      | _ => []
      end
  | None => []
  end.

(** The committed colors that are colors of the item. *)
Definition overlap (committed colors : list pyval) : list pyval :=
  List.filter (λ c, mem c colors) committed.

(** Step 4: the fraction of the item's colors that are committed, weighted;
    nothing unless both sets are non-empty. *)
Definition color_affinity (committed colors : list pyval) (commitment : Q) : Q :=
  match committed, colors with
  | _ :: _, _ :: _ =>
      inject_Z (Z.of_nat (length (overlap committed colors)))
      / inject_Z (Z.of_nat (length colors)) * commitment * 10
  | _, _ => 0
  end.

Fixpoint sum (l : list Q) : Q :=
  match l with
  | [] => 0
  | x :: rest => x + sum rest
  end.

End Spec.

(** ** The inputs the data model describes *)

Module Typed.
Import Py Service.

(** An integer that is too large for a float does not read as a stat. *)
Definition converts (E : Env) (v : pyval) : Prop :=
  float (parse_float E) v ≠ Raise OverflowError.

(** The cards on which the Feature Extractor returns: the cost value reads
    as a float, the type line is text, the rarity can be looked up. *)
Definition extractable (E : Env) (card : gmap string pyval) : Prop :=
  returns (float (parse_float E) (get card "cmc" (VInt 0))) ∧
  (∃ s, get card "type_line" (VStr "") = VStr s) ∧
  hashable (get card "rarity" (VStr "common")) = true ∧
  converts E (get card "power" (VInt 0)) ∧
  converts E (get card "toughness" (VInt 0)).

(** The cards the rules of the Fallback Evaluator apply to: type line and
    ability text are text, the rarity can be looked up. *)
Definition readable (card : gmap string pyval) : Prop :=
  hashable (get card "rarity" (VStr "common")) = true ∧
  (∃ s, get card "type_line" (VStr "") = VStr s) ∧
  (∃ s, get card "oracle_text" (VStr "") = VStr s).

(** The color list of the card, when there is one, holds hashable entries. *)
Definition colored (card : gmap string pyval) : Prop :=
  match card !! "color_identity" with
  | None => True
  | Some (VList l) => forallb hashable l = true
  | Some _ => False
  end.

(** The picked colors of the context, when there are some, are a set. *)
Definition committing (context : option (gmap string pyval)) : Prop :=
  match context with
  | Some ctx =>
      match ctx !! "picked_colors" with
      | None | Some (VSet _) => True
      | Some _ => False
      end
  | None => True
  end.

(** The artifact is the dictionary of the training script, its scaler and
    its model answer on the features of the card, and the randomness of its
    profile is not negative. *)
Definition serving (E : Env) (a : Artifact) (card : gmap string pyval) : Prop :=
  ∃ features scaled y ys,
    keys a = Ok tt ∧
    extract_features E card = Ok features ∧
    scaler a features = Ok scaled ∧
    base_model a scaled = Ok (y :: ys) ∧
    (0 <= randomness (config a))%Q.

(** The artifact a call for the key finds: the cached one, else the one on
    disk. *)
Definition found (E : Env) (w : World) (set_code personality : string)
    (a : Artifact) : Prop :=
  cached w set_code personality = Some a ∨
  (cached w set_code personality = None ∧
   disk E (model_path set_code personality) = Pickled a).

(** Candidates of the data model, for a key whose artifact, cached or on
    disk, serves each of them. *)
Definition rankable (E : Env) (w : World) (set_code personality : string)
    (cards : list (gmap string pyval)) : Prop :=
  ∀ card, card ∈ cards →
    readable card ∧ colored card ∧
    ∀ a, found E w set_code personality a → serving E a card.

(** A bare file name: the text holds no slash. *)
Fixpoint slashless (s : string) : bool :=
  match s with
  | EmptyString => true
  | String c rest => negb (Ascii.eqb c "/") && slashless rest
  end.

End Typed.

(** ** Concrete surroundings used to run the service *)

Module Examples.
Import Py Service.

(** A reader of unsigned decimal digit strings. *)
Fixpoint digits (acc : Z) (s : string) : option Z :=
  match s with
  | EmptyString => Some acc
  | String c rest =>
      let n := Z.of_nat (nat_of_ascii c) in
      if (48 <=? n)%Z && (n <=? 57)%Z then digits (10 * acc + (n - 48))%Z rest
      else None
  end.

Definition parse_digits (s : string) : option Q :=
  match s with
  | EmptyString => None
  | _ => inject_Z <$> digits 0 s
  end.

(** No model on disk, every uniform draw 1/2, every normal draw 0. *)
Definition bare : Env :=
  {| parse_float := parse_digits; py_random := λ _, 0.5%Q;
     np_normal := λ _, 0%Q; disk := λ _, Missing |}.

Definition fresh : World :=
  {| loaded_models := ∅; py_cursor := 0; np_cursor := 0; loads := 0 |}.

Definition elf : gmap string pyval :=
  list_to_map
    [("cmc", VFloat 3); ("type_line", VStr "Creature — Elf Druid");
     ("rarity", VStr "rare"); ("power", VStr "2"); ("toughness", VStr "*");
     ("oracle_text", VStr "Destroy target artifact.");
     ("color_identity", VList [VStr "G"])].

Definition bolt : gmap string pyval :=
  list_to_map
    [("cmc", VFloat 1); ("type_line", VStr "Instant");
     ("rarity", VStr "common"); ("oracle_text", VStr "Draw a card.");
     ("color_identity", VList [VStr "R"])].

Definition green : option (gmap string pyval) :=
  Some {[ "picked_colors" := VSet [VStr "G"] ]}.

(** An artifact whose model answers 500 on every row. *)
Definition wild : Artifact :=
  {| keys := Ok tt;
     base_model := λ rows, Ok (map (λ _, 500%Q) rows);
     scaler := λ rows, Ok rows;
     config := gold;
     feature_order := FEATURE_ORDER |}.

(** An artifact that expects the features in the opposite order and scores
    ten times the column it takes for the number of colors. *)
Definition misordered : Artifact :=
  {| keys := Ok tt;
     base_model := λ rows, Ok (map (λ row, 10 * default 0 (head row))%Q rows);
     scaler := λ rows, Ok rows;
     config := silver;
     feature_order := rev FEATURE_ORDER |}.

(** The models directory holds [wild] for DTK and gold, [misordered] for
    DTK and silver. *)
Definition stocked : Env :=
  {| parse_float := parse_digits; py_random := λ _, 0.5%Q;
     np_normal := λ _, 0%Q;
     disk := λ path,
       if bool_decide (path = Pathlib.joinpath Pathlib.MODELS_DIR
                                "dtk/gold_bot.pkl")
       then Pickled wild
       else if bool_decide (path = Pathlib.joinpath Pathlib.MODELS_DIR
                                     "dtk/silver_bot.pkl")
       then Pickled misordered
       else Missing |}.

Definition twice_white : gmap string pyval :=
  {[ "color_identity" := VList [VStr "W"; VStr "W"] ]}.

Definition no_cost : gmap string pyval := {[ "cmc" := VNone ]}.

End Examples.

(** ** The training script (scripts/train_draft_bots.py) *)

Module Training.
Import Py Service.

(** BOT_PERSONALITIES of the training script (lines 33-66), in the order of
    the dictionary, through the keys the service reads of a pickled config
    (the ['description'] is read nowhere). *)
Definition BOT_PERSONALITIES : list (string * Config) :=
  [("bronze",
    {| name := "Bronze Bot"; skill_level := 0.3; randomness := 0.4;
       rare_bias := 1.5; color_commitment := 0.5 |});
   ("silver",
    {| name := "Silver Bot"; skill_level := 0.5; randomness := 0.3;
       rare_bias := 1.2; color_commitment := 0.7 |});
   ("gold",
    {| name := "Gold Bot"; skill_level := 0.7; randomness := 0.2;
       rare_bias := 1.0; color_commitment := 0.85 |});
   ("mythic",
    {| name := "Mythic Bot"; skill_level := 0.9; randomness := 0.1;
       rare_bias := 0.9; color_commitment := 0.95 |})].

(** The feature columns of create_training_data (lines 148-156), for a
    merged frame with the given columns. *)
Definition feature_cols (columns : list string) : list string :=
  let feature_cols :=
    ["cmc"; "is_creature"; "is_instant"; "is_sorcery";
     "is_enchantment"; "is_artifact"; "is_land";
     "rarity_score"; "power_num"; "toughness_num"; "num_colors"] in
  if existsb (String.eqb "pick_rating") columns
  then (feature_cols ++ ["pick_rate"; "win_rate_delta"])%list
  else feature_cols.

(** create_bot_personalities (lines 202-223): one personality dictionary per
    entry of the table, all with the same model and scaler.  A dictionary
    is seen as the service reads it back; [fitted_on] are the columns the
    model and the scaler were fitted on. *)
Definition create_bot_personalities
    (base_model : list (list Q) → result (list Q))
    (scaler : list (list Q) → result (list (list Q)))
    (fitted_on : list string) (set_code : string) : list (string * Artifact) :=
  map (λ entry : string * Config,
         (entry.1,
          {| keys := Ok tt;
             Service.base_model := base_model; Service.scaler := scaler;
             config := entry.2; feature_order := fitted_on |}))
      BOT_PERSONALITIES.

(** Writing a file: the file of that path is replaced, whatever segments
    the path was joined from. *)
Definition write (path : Pathlib.path) (content : file)
    (d : Pathlib.path → file) : Pathlib.path → file :=
  λ p, if bool_decide (p = path) then content else d p.

(** save_models (lines 225-249): every personality is pickled to
    [MODELS_DIR / set_code.lower() / f"{bot_id}_bot.pkl"] in the order of
    the dictionary, a later one over an earlier one of the same path; then
    metadata.json, which is no pickle, is written beside them.  This is the
    directory a run that returns leaves: the directory can be made and
    every file can be written. *)
Definition save_models (personalities : list (string * Artifact))
    (set_code : string) (d : Pathlib.path → file) : Pathlib.path → file :=
  let set_models_dir := Pathlib.joinpath Pathlib.MODELS_DIR (lower set_code) in
  let d :=
    fold_left
      (λ d (item : string * Artifact),
         let model_path :=
           Pathlib.joinpath set_models_dir (item.1 ++ "_bot.pkl") in
         write model_path (Pickled item.2) d)
      personalities d in
  let meta_path := Pathlib.joinpath set_models_dir "metadata.json" in
  write meta_path Unreadable d.

(** The surroundings with another models directory. *)
Definition with_disk (E : Env) (d : Pathlib.path → file) : Env :=
  {| parse_float := parse_float E; py_random := py_random E;
     np_normal := np_normal E; disk := d |}.

End Training.

(** ** Sets as Python keeps them *)

Module Sets.
Import Py.

(** No two entries are equal: what every Python set satisfies. *)
Fixpoint distinct (l : list pyval) : bool :=
  match l with
  | [] => true
  | x :: rest => negb (mem x rest) && distinct rest
  end.

End Sets.

(** * Properties *)

Import Py Service Spec Typed.

(** ** Strings *)

Lemma append_cons (c : ascii) (a b : string) :
  String c a ++ b = String c (a ++ b).
Proof. reflexivity. Qed.

Lemma lower_app (a b : string) : lower (a ++ b) = lower a ++ lower b.
Proof. induction a as [|c a IH]; simpl; [done | by rewrite IH]. Qed.

Lemma lower_split (s a b : string) :
  lower s = a ++ b → ∃ a' b', s = a' ++ b' ∧ lower a' = a ∧ lower b' = b.
Proof.
  revert s. induction a as [|c a IH]; intros s H.
  - exists EmptyString, s. done.
  - destruct s as [|d s]; simpl in H; [discriminate H |].
    injection H as Hc Hs. destruct (IH _ Hs) as (a' & b' & -> & Ha & Hb).
    exists (String d a'), b'. simpl. by rewrite Hc, Ha.
Qed.

Lemma prefix_app (p s : string) :
  String.prefix p s = true ↔ ∃ post, s = p ++ post.
Proof.
  revert s. induction p as [|c p IH]; intros [|d s]; simpl.
  - split; [intros _; by exists EmptyString | done].
  - split; [intros _; by exists (String d s) | done].
  - split; [done | intros [post H]; discriminate H].
  - destruct (Ascii.ascii_dec c d) as [->|Hne].
    + rewrite IH. split; intros [post H]; exists post;
        rewrite ?append_cons in *; congruence.
    + split; [done | intros [post H]; rewrite append_cons in H; congruence].
Qed.

Lemma contains_app (word text : string) :
  contains word text = true ↔ ∃ pre post, text = pre ++ word ++ post.
Proof.
  induction text as [|c text IH].
  - change (contains word "") with (String.prefix word "" || false).
    rewrite orb_false_r, prefix_app. split.
    + intros [post H]. by exists EmptyString, post.
    + intros (pre & post & H). destruct pre; [by exists post | discriminate H].
  - change (contains word (String c text))
      with (String.prefix word (String c text) || contains word text).
    rewrite orb_true_iff, prefix_app, IH. split.
    + intros [[post H] | (pre & post & H)].
      * by exists EmptyString, post.
      * exists (String c pre), post. rewrite append_cons. by rewrite H.
    + intros (pre & post & H). destruct pre as [|d pre].
      * left. by exists post.
      * right. exists pre, post. rewrite append_cons in H. congruence.
Qed.

(** [word in text.lower()] is the case-insensitive substring test, for a
    word written in lower case. *)
Lemma contains_lower (word text : string) :
  lower word = word →
  contains word (lower text) = true ↔ ci_occurs word text.
Proof.
  intros Hw. rewrite contains_app. unfold ci_occurs. rewrite Hw. split.
  - intros (pre & post & H).
    destruct (lower_split _ _ _ H) as (pre' & rest & -> & Hpre & Hrest).
    destruct (lower_split _ _ _ Hrest) as (mid & post' & -> & Hmid & Hpost).
    by exists pre', mid, post'.
  - intros (pre & mid & post & -> & Hmid).
    exists (lower pre), (lower post). by rewrite !lower_app, Hmid.
Qed.

Lemma indicator_indicates (word text : string) :
  lower word = word →
  indicates (inject_Z (if contains word (lower text) then 1 else 0))
            (ci_occurs word text).
Proof.
  intros Hw. pose proof (contains_lower word text Hw) as H.
  destruct (contains word (lower text)); [left | right]; split; try done.
  - by apply H.
  - intros Hc. apply H in Hc. done.
Qed.

(** ** Results *)

Lemma bind_ok {A B} (r : result A) (k : A → result B) (b : B) :
  r ≫= k = Ok b ↔ ∃ a, r = Ok a ∧ k a = Ok b.
Proof.
  destruct r as [a|e]; simpl; split.
  - intros H. by exists a.
  - by intros (a' & [= <-] & H).
  - done.
  - by intros (a' & [=] & _).
Qed.

Lemma except_value_type_ok {A} (r : result A) (d a : A) :
  except_value_type r d = Ok a →
  r = Ok a ∨ (a = d ∧ (r = Raise ValueError ∨ r = Raise TypeError)).
Proof.
  destruct r as [x|[]]; simpl; intros [=]; subst; auto.
Qed.

(** ** The lookup tables *)

Lemma lookup_four {A} (k1 k2 k3 k4 s : string) (v1 v2 v3 v4 d : A) :
  default d ((list_to_map [(k1, v1); (k2, v2); (k3, v3); (k4, v4)]
              : gmap string A) !! s)
  = if String.eqb s k1 then v1
    else if String.eqb s k2 then v2
    else if String.eqb s k3 then v3
    else if String.eqb s k4 then v4
    else d.
Proof.
  simpl.
  destruct (String.eqb_spec s k1) as [->|?];
    [by rewrite lookup_insert_eq | rewrite lookup_insert_ne by done].
  destruct (String.eqb_spec s k2) as [->|?];
    [by rewrite lookup_insert_eq | rewrite lookup_insert_ne by done].
  destruct (String.eqb_spec s k3) as [->|?];
    [by rewrite lookup_insert_eq | rewrite lookup_insert_ne by done].
  destruct (String.eqb_spec s k4) as [->|?];
    [by rewrite lookup_insert_eq | rewrite lookup_insert_ne by done].
  by rewrite lookup_empty.
Qed.

Lemma rarity_map_ordinal (rarity : pyval) (z : Z) :
  table_get rarity_map rarity 1%Z = Ok z → z = rarity_ordinal rarity.
Proof.
  destruct rarity as [| | | |s| | |]; simpl; try by intros [= <-].
  intros [= <-]. unfold rarity_map. rewrite lookup_four.
  destruct (String.eqb_spec s "common") as [->|?]; [done |].
  by repeat destruct (String.eqb s _).
Qed.

Lemma table_get_returns {A} (table : gmap string A) (key : pyval) (d : A) :
  returns (table_get table key d) ↔ hashable key = true.
Proof.
  unfold returns. destruct key; simpl; split; intros H; eauto;
    try done; by destruct H.
Qed.

(** ** The Feature Extractor *)

Lemma stat_ok (E : Env) (card : gmap string pyval) (key : string) (q : Q) :
  except_value_type (float (parse_float E) (get card key (VInt 0))) 0%Q = Ok q →
  q = stat_or_zero E card key.
Proof.
  unfold get, stat_or_zero. destruct (card !! key) as [v|]; simpl.
  - intros H. apply except_value_type_ok in H as [-> | [-> [-> | ->]]]; done.
  - by intros [= <-].
Qed.

(** [float] raises nothing but TypeError, ValueError and OverflowError. *)
Lemma float_cases (parse : string → option Q) (v : pyval) :
  returns (float parse v) ∨ float parse v = Raise TypeError ∨
  float parse v = Raise ValueError ∨ float parse v = Raise OverflowError.
Proof.
  unfold returns. destruct v as [| |z| |s| | |]; simpl; eauto.
  - destruct (Z.abs z <? FLOAT_INT_LIMIT)%Z; eauto.
  - destruct (parse s); eauto.
Qed.

Lemma float_stat_returns (E : Env) (v : pyval) :
  converts E v → returns (except_value_type (float (parse_float E) v) 0%Q).
Proof.
  unfold converts, returns.
  destruct (float_cases (parse_float E) v) as [[q ->] | [-> | [-> | ->]]];
    simpl; eauto; done.
Qed.

Lemma float_stat_converts (E : Env) (v : pyval) :
  returns (except_value_type (float (parse_float E) v) 0%Q) → converts E v.
Proof.
  unfold converts, returns. intros [q H] Hv. rewrite Hv in H. discriminate H.
Qed.

(** The Feature Extractor returns exactly on the extractable cards. *)
Lemma extract_features_returns (E : Env) (card : gmap string pyval) :
  returns (extract_features E card) ↔ extractable E card.
Proof.
  unfold extractable, extract_features. split.
  - intros [v H].
    apply bind_ok in H as (cmc & Hcmc & H).
    apply bind_ok in H as (tl & Htl & H).
    apply bind_ok in H as (rs & Hrs & H).
    apply bind_ok in H as (pw & Hpw & H).
    apply bind_ok in H as (tg & Htg & H).
    repeat split.
    + by exists cmc.
    + destruct (get card "type_line" (VStr "")); try discriminate Htl. eauto.
    + apply (table_get_returns rarity_map _ 1%Z). by exists rs.
    + apply float_stat_converts. by exists pw.
    + apply float_stat_converts. by exists tg.
  - intros ([cmc Hcmc] & [tl Htl] & Hr & Hp & Ht).
    apply (table_get_returns rarity_map _ 1%Z) in Hr as [rs Hrs].
    apply float_stat_returns in Hp as [pw Hpw].
    apply float_stat_returns in Ht as [tg Htg].
    rewrite Hcmc, Htl, Hrs, Hpw, Htg. simpl. by eexists.
Qed.

(** C1, as amended: the Feature Extractor returns on every card whose cost
    value reads as a float, whose type line is text, whose rarity can be
    hashed and whose stats are no integers beyond the floats; and whenever it
    returns, the result is one row of exactly 11 numbers in the fixed order
    cost value, the six 0/1 type indicators (creature, instant, sorcery,
    enchantment, artifact, land, each a case-insensitive substring test on
    the type line), the rarity ordinal (unknown rarity 1), power and
    toughness as floats (0.0 by default) and the number of entries of the
    color list, repeated colors counted, 0 when the colors are absent or not
    a list. *)
Theorem extract_features_layout (E : Env) (card : gmap string pyval) :
  (extractable E card → returns (extract_features E card)) ∧
  ∀ v, extract_features E card = Ok v →
    ∃ cmc type_line creature instant sorcery enchantment artifact land,
      v = [[cmc; creature; instant; sorcery; enchantment; artifact; land;
            inject_Z (rarity_ordinal (get card "rarity" (VStr "common")));
            stat_or_zero E card "power"; stat_or_zero E card "toughness";
            inject_Z (Z.of_nat (listed_colors card))]] ∧
      float (parse_float E) (get card "cmc" (VInt 0)) = Ok cmc ∧
      get card "type_line" (VStr "") = VStr type_line ∧
      indicates creature (ci_occurs "creature" type_line) ∧
      indicates instant (ci_occurs "instant" type_line) ∧
      indicates sorcery (ci_occurs "sorcery" type_line) ∧
      indicates enchantment (ci_occurs "enchantment" type_line) ∧
      indicates artifact (ci_occurs "artifact" type_line) ∧
      indicates land (ci_occurs "land" type_line).
Proof.
  split; [apply extract_features_returns |].
  unfold extract_features. intros v H.
  apply bind_ok in H as (cmc & Hcmc & H).
  apply bind_ok in H as (tl & Htl & H).
  apply bind_ok in H as (rs & Hrs & H).
  apply bind_ok in H as (pw & Hpw & H).
  apply bind_ok in H as (tg & Htg & H).
  injection H as <-.
  apply rarity_map_ordinal in Hrs as ->.
  apply stat_ok in Hpw as ->. apply stat_ok in Htg as ->.
  destruct (get card "type_line" (VStr "")) as [| | | |type_line| | |] eqn:Hty;
    try discriminate Htl.
  injection Htl as <-.
  eexists cmc, type_line, _, _, _, _, _, _.
  split; [|repeat split; try done; by apply indicator_indicates].
  unfold np_row, listed_colors, get, len_if_list. simpl.
  by destruct (card !! "color_identity") as [[]|].
Qed.

Lemma extract_features_layout_witness :
  extract_features Examples.bare Examples.elf
  = Ok [[3; 1; 0; 0; 0; 0; 0; 3; 2; 0; 1]]%Q ∧
  ∃ type_line creature,
    get Examples.elf "type_line" (VStr "") = VStr type_line ∧
    indicates creature (ci_occurs "creature" type_line) ∧
    [[3; 1; 0; 0; 0; 0; 0; 3; 2; 0; 1]]%Q !! 0%nat
    ≫= (λ row : list Q, row !! 1%nat) = Some creature.
Proof.
  split; [reflexivity |].
  destruct (proj2 (extract_features_layout Examples.bare Examples.elf)
              [[3; 1; 0; 0; 0; 0; 0; 3; 2; 0; 1]]%Q eq_refl)
    as (cmc & tl & cr & i & s & e & a & l & Hv & _ & Htl & Hcr & _).
  exists tl, cr. split_and!; [exact Htl | exact Hcr |].
  by injection Hv as _ <- _.
Defined.

(** The claim of C1 as stated fails on a color list that repeats a color:
    the last component is the length of the list, here 2, and the card has
    one distinct color. *)
Lemma extract_features_counts_repeats :
  extract_features Examples.bare Examples.twice_white
  = Ok [[0; 0; 0; 0; 0; 0; 0; 1; 0; 0; 2]]%Q ∧
  distinct_colors Examples.twice_white = 1%nat ∧
  ¬ (2 == inject_Z (Z.of_nat (distinct_colors Examples.twice_white)))%Q.
Proof. repeat split. vm_compute. discriminate. Qed.

(** C2: the Feature Extractor raises on malformed attribute values.  A power
    that is not a number degrades to 0.0, as the claim says; but a cost value
    that is not a number raises TypeError, a type line that is not text
    raises AttributeError, a rarity that cannot be hashed raises TypeError and
    an integer power beyond the floats raises OverflowError, where the claim
    promises the default of the component. *)
Theorem extract_features_raises (E : Env) :
  extract_features E {[ "power" := VNone ]}
  = Ok [[0; 0; 0; 0; 0; 0; 0; 1; 0; 0; 0]]%Q ∧
  extract_features E Examples.no_cost = Raise TypeError ∧
  extract_features E {[ "type_line" := VNone ]} = Raise AttributeError ∧
  extract_features E {[ "rarity" := VList [] ]} = Raise TypeError ∧
  extract_features E {[ "power" := VInt (2 ^ 1024) ]} = Raise OverflowError.
Proof. repeat split. Qed.

(** ** Running a call in a world *)

Lemma run_bind {A B} (m : M A) (k : A → M B) (w : World) :
  (m ≫= k) w = match m w with
               | (Ok a, w') => k a w'
               | (Raise e, w') => (Raise e, w')
               end.
Proof. reflexivity. Qed.

Lemma run_lift_bind {A B} (r : result A) (k : A → M B) (w : World) :
  (lift r ≫= k) w = match r with
                    | Ok a => k a w
                    | Raise e => (Raise e, w)
                    end.
Proof. rewrite run_bind. unfold lift. by destruct r. Qed.

(** ** Clipping *)

Lemma np_clip_clipped (x lo hi : Q) :
  (lo <= hi)%Q → clipped x lo hi (np_clip x lo hi).
Proof.
  intros Hlh. unfold clipped, np_clip.
  destruct (Q.max_spec x lo) as [[H1 H2]|[H1 H2]];
    destruct (Q.min_spec (Qmax x lo) hi) as [[H3 H4]|[H3 H4]];
    rewrite ?H4, ?H2 in *; repeat split; intros; lra.
Qed.

Lemma np_clip_range (x : Q) : (0 <= np_clip x 0 100 <= 100)%Q.
Proof. apply np_clip_clipped. lra. Qed.

(** ** The Fallback Evaluator *)

Lemma rarity_scores_base (rarity : pyval) :
  hashable rarity = true →
  table_get rarity_scores rarity 40%Z = Ok (rarity_base rarity).
Proof.
  destruct rarity as [| | | |s| | |]; simpl; try done.
  intros _. f_equal. unfold rarity_scores. rewrite lookup_four.
  destruct (String.eqb_spec s "common") as [->|?]; [done |].
  by repeat destruct (String.eqb s _).
Qed.

Lemma multiplier_scalar (personality : string) :
  default 1.0%Q (personality_multipliers !! personality)
  = personality_scalar personality.
Proof.
  unfold personality_multipliers, personality_scalar. rewrite lookup_four.
  destruct (String.eqb_spec personality "bronze") as [->|?]; [done |].
  destruct (String.eqb_spec personality "silver") as [->|?]; [done |].
  destruct (String.eqb_spec personality "gold") as [->|?]; [done |].
  by destruct (String.eqb personality "mythic").
Qed.

Lemma removal_words_occur (text : string) :
  existsb (λ word, contains word (lower text)) REMOVAL_WORDS = true
  ↔ ∃ word, In word REMOVAL_WORDS ∧ ci_occurs word text.
Proof.
  rewrite existsb_exists. split; intros (word & Hin & H); exists word;
    (split; [done |]); apply contains_lower; try done;
    simpl in Hin; by destruct Hin as [<-|[<-|[<-|[<-|[]]]]].
Qed.

(** On a readable card the rules return the rarity base, plus 5 for a
    creature, plus 10 for a removal word, times the personality scalar. *)
Lemma fallback_rules_readable (card : gmap string pyval) (personality : string) :
  readable card →
  ∃ type_line oracle_text creature removal,
    get card "type_line" (VStr "") = VStr type_line ∧
    get card "oracle_text" (VStr "") = VStr oracle_text ∧
    grants creature 5 (ci_occurs "creature" type_line) ∧
    grants removal 10
      (∃ word, In word REMOVAL_WORDS ∧ ci_occurs word oracle_text) ∧
    fallback_rules card personality
    = Ok (inject_Z (rarity_base (get card "rarity" (VStr "common"))
                    + creature + removal)
          * personality_scalar personality)%Q.
Proof.
  intros (Hr & [tl Htl] & [ot Hot]).
  pose proof (contains_lower "creature" tl eq_refl) as Hc.
  pose proof (removal_words_occur ot) as Hw.
  unfold fallback_rules.
  rewrite (rarity_scores_base _ Hr), Htl, Hot, multiplier_scalar.
  cbn [mbind result_mbind bind lower_method].
  exists tl, ot,
    (if contains "creature" (lower tl) then 5 else 0)%Z,
    (if existsb (λ word, contains word (lower ot)) REMOVAL_WORDS
     then 10 else 0)%Z.
  repeat split.
  - destruct (contains "creature" (lower tl)); [left | right]; split; try done.
    + by apply Hc.
    + intros H. by apply Hc in H.
  - destruct (existsb _ REMOVAL_WORDS); [left | right]; split; try done.
    + by apply Hw.
    + intros H. by apply Hw in H.
  - do 2 f_equal.
    destruct (contains "creature" (lower tl));
      destruct (existsb _ REMOVAL_WORDS); f_equal; lia.
Qed.

(** The rules return exactly on the readable cards. *)
Lemma fallback_rules_returns (card : gmap string pyval) (personality : string) :
  returns (fallback_rules card personality) ↔ readable card.
Proof.
  split.
  - intros [v H]. unfold fallback_rules in H.
    apply bind_ok in H as (s & Hs & H).
    apply bind_ok in H as (tl & Htl & H).
    apply bind_ok in H as (ot & Hot & H).
    repeat split.
    + apply (table_get_returns rarity_scores _ 40%Z). by exists s.
    + destruct (get card "type_line" (VStr "")); try discriminate Htl. eauto.
    + destruct (get card "oracle_text" (VStr "")); try discriminate Hot. eauto.
  - intros H.
    destruct (fallback_rules_readable card personality H)
      as (? & ? & ? & ? & _ & _ & _ & _ & ->).
    by eexists.
Qed.

(** One run of the Fallback Evaluator: the rules, one draw of [random()]
    stretched to the interval from -10 to 10, the clip. *)
Lemma fallback_run (E : Env) (card : gmap string pyval) (personality : string)
    (w : World) :
  (_fallback_evaluation E card personality w).1
  = score ← fallback_rules card personality;
    Ok (np_clip (score + random_uniform (-10) 10 (py_random E (py_cursor w))) 0 100).
Proof.
  unfold _fallback_evaluation. rewrite run_lift_bind.
  by destruct (fallback_rules card personality).
Qed.

Lemma random_uniform_range (a b r : Q) :
  (a <= b)%Q → (0 <= r < 1)%Q → (a <= random_uniform a b r <= b)%Q.
Proof.
  unfold random_uniform. intros Hab [H0 H1].
  assert (0 <= (b - a) * r)%Q by (apply Qmult_le_0_compat; lra).
  assert (0 <= (b - a) * (1 - r))%Q by (apply Qmult_le_0_compat; lra).
  lra.
Qed.

(** ** The Value Predictor *)

Lemma cached_store (w : World) (set_code personality : string) (a : Artifact) :
  cached (store w set_code personality a) set_code personality = Some a.
Proof.
  unfold cached, store. simpl. rewrite lookup_insert_eq. simpl.
  by rewrite lookup_insert_eq.
Qed.

(** A cached artifact is used as it is. *)
Lemma predict_hit (E : Env) (card : gmap string pyval)
    (set_code personality : string) (context : option (gmap string pyval))
    (w : World) (a : Artifact) :
  cached w set_code personality = Some a →
  predict_pick_value E card set_code personality context w
  = predict_with_model E a card context w.
Proof.
  intros H. unfold predict_pick_value.
  rewrite run_bind. unfold is_cached at 1. rewrite H.
  rewrite bool_decide_true by eauto.
  rewrite run_bind. unfold ret at 1.
  rewrite run_bind. unfold lookup_model at 1. by rewrite H.
Qed.

(** On a miss a readable file is loaded, stored and used. *)
Lemma predict_load (E : Env) (card : gmap string pyval)
    (set_code personality : string) (context : option (gmap string pyval))
    (w : World) (a : Artifact) :
  cached w set_code personality = None →
  disk E (model_path set_code personality) = Pickled a →
  predict_pick_value E card set_code personality context w
  = predict_with_model E a card context (store w set_code personality a).
Proof.
  intros H Hd. unfold predict_pick_value.
  rewrite run_bind. unfold is_cached at 1. rewrite H.
  rewrite bool_decide_false by (by intros [? ?]).
  rewrite run_bind. unfold load_bot_model at 1. rewrite Hd.
  rewrite run_bind. unfold lookup_model at 1. by rewrite cached_store.
Qed.




(** ** The Personality Adjuster *)

Lemma rare_or_mythic_favoured (card : gmap string pyval) :
  rare_or_mythic card = favoured card.
Proof.
  unfold rare_or_mythic, favoured, get.
  by destruct (card !! "rarity") as [[]|].
Qed.

Lemma set_of_colors (card : gmap string pyval) :
  colored card →
  set_of (get card "color_identity" (VList [])) = Ok (item_colors card).
Proof.
  unfold colored, item_colors, get.
  destruct (card !! "color_identity") as [[]|]; simpl; try done.
  by intros ->.
Qed.

Lemma size_zero_empty (ctx : gmap string pyval) (key : string) :
  (size ctx =? 0)%nat = true → ctx !! key = None.
Proof.
  intros H. apply Nat.eqb_eq, map_size_empty_iff in H. subst.
  apply lookup_empty.
Qed.

(** The bonus of step 4 on typed inputs. *)
Lemma commitment_bonus_typed (card : gmap string pyval) (config : Config)
    (context : option (gmap string pyval)) :
  colored card → committing context →
  commitment_bonus card config context
  = Ok (color_affinity (committed context) (item_colors card)
          (color_commitment config)).
Proof.
  intros Hcard Hctx. unfold commitment_bonus, committing, committed in *.
  destruct context as [ctx|]; [|done].
  destruct (size ctx =? 0)%nat eqn:Hsize; simpl.
  { by rewrite (size_zero_empty _ _ Hsize). }
  destruct (ctx !! "picked_colors") as [picked|]; [|done].
  rewrite (set_of_colors _ Hcard). simpl.
  destruct picked as [| | | | | |l|]; try done.
  unfold color_affinity. simpl.
  destruct l as [|c l]; [done |].
  by destruct (item_colors card).
Qed.

(** One run of the adjuster, whatever the inputs. *)
Lemma apply_personality_unfold (E : Env) (base_score : Q)
    (card : gmap string pyval) (config : Config)
    (context : option (gmap string pyval)) (w : World) :
  _apply_personality E base_score card config context w
  = if Qlt_le_dec (randomness config * 20) 0 then (Raise ValueError, w)
    else
      (bonus ← commitment_bonus card config context;
       Ok ((if rare_or_mythic card
            then (base_score + (100 - base_score) * (1 - skill_level config) * 0.3)
                 * rare_bias config
            else base_score + (100 - base_score) * (1 - skill_level config) * 0.3)
           + (0 + randomness config * 20 * np_normal E (np_cursor w))
           + bonus)%Q,
       drawn w).
Proof.
  unfold _apply_personality, np_random_normal.
  destruct (Qlt_le_dec (randomness config * 20) 0); [done |].
  rewrite !run_bind. unfold np_draw at 1, ret at 1.
  rewrite run_lift_bind.
  by destruct (commitment_bonus card config context).
Qed.

(** What a run of the adjuster returns depends on the world through the
    position of the normal generator only. *)
Lemma apply_personality_result (E : Env) (base_score : Q)
    (card : gmap string pyval) (config : Config)
    (context : option (gmap string pyval)) (w1 w2 : World) :
  np_cursor w1 = np_cursor w2 →
  (_apply_personality E base_score card config context w1).1
  = (_apply_personality E base_score card config context w2).1.
Proof.
  intros Hnp. rewrite !apply_personality_unfold, Hnp.
  by destruct (Qlt_le_dec (randomness config * 20) 0).
Qed.

(** One run of the adjuster on typed inputs: one normal draw is consumed. *)
Lemma apply_personality_run (E : Env) (base_score : Q)
    (card : gmap string pyval) (config : Config)
    (context : option (gmap string pyval)) (w : World) :
  (0 <= randomness config)%Q → colored card → committing context →
  _apply_personality E base_score card config context w
  = (Ok ((if favoured card
          then (base_score + (100 - base_score) * (1 - skill_level config) * 0.3)
               * rare_bias config
          else base_score + (100 - base_score) * (1 - skill_level config) * 0.3)
         + (0 + randomness config * 20 * np_normal E (np_cursor w))
         + color_affinity (committed context) (item_colors card)
             (color_commitment config))%Q,
     drawn w).
Proof.
  intros Hrand Hcard Hctx.
  unfold _apply_personality, np_random_normal.
  destruct (Qlt_le_dec (randomness config * 20) 0) as [Hneg|_]; [lra |].
  rewrite !run_bind. unfold np_draw at 1, ret at 1.
  rewrite run_lift_bind, (commitment_bonus_typed _ _ _ Hcard Hctx).
  by rewrite rare_or_mythic_favoured.
Qed.

(** C4: the Personality Adjuster applies four steps in this order and clamps
    nothing: the skill regression (100 - base) * (1 - skill) * 0.3 is added,
    the score of a rare or mythic item is multiplied by the rare bias, a
    standard normal draw scaled by randomness * 20 is added, and when both the
    committed colors and the colors of the item are non-empty the committed
    fraction of the item's colors times the color commitment times 10 is
    added. *)
Theorem apply_personality_steps (E : Env) (base_score : Q)
    (card : gmap string pyval) (config : Config)
    (context : option (gmap string pyval)) (w : World) :
  (0 <= randomness config)%Q → colored card → committing context →
  ∃ s1 s2 noise s3 s4,
    s1 = (base_score + (100 - base_score) * (1 - skill_level config) * 0.3)%Q ∧
    s2 = (if favoured card then s1 * rare_bias config else s1)%Q ∧
    (noise == randomness config * 20 * np_normal E (np_cursor w))%Q ∧
    s3 = (s2 + noise)%Q ∧
    s4 = (s3 + color_affinity (committed context) (item_colors card)
                 (color_commitment config))%Q ∧
    (_apply_personality E base_score card config context w).1 = Ok s4.
Proof.
  intros Hrand Hcard Hctx.
  eexists _, _, (0 + randomness config * 20 * np_normal E (np_cursor w))%Q, _, _.
  split_and!; try reflexivity; [lra |].
  rewrite apply_personality_run by done. by destruct (favoured card).
Qed.

Lemma apply_personality_steps_witness :
  ∃ v, (_apply_personality Examples.bare 100 Examples.elf bronze Examples.green
          Examples.fresh).1 = Ok v ∧ (v == 155)%Q.
Proof.
  destruct (apply_personality_steps Examples.bare 100 Examples.elf bronze
              Examples.green Examples.fresh)
    as (s1 & s2 & noise & s3 & s4 & -> & -> & Hn & -> & -> & H).
  - vm_compute. discriminate.
  - reflexivity.
  - exact I.
  - eexists. split; [exact H |]. rewrite Hn. reflexivity.
Defined.

Lemma bind_run_ok {A B} (m : M A) (k : A → M B) (w w' : World) (b : B) :
  (m ≫= k) w = (Ok b, w') ↔ ∃ a w1, m w = (Ok a, w1) ∧ k a w1 = (Ok b, w').
Proof.
  rewrite run_bind. destruct (m w) as [[a|e] w1]; split.
  - intros H. by exists a, w1.
  - by intros (a' & w1' & [= <- <-] & H).
  - done.
  - by intros (a' & w1' & [=] & _).
Qed.

Lemma predict_with_model_range (E : Env) (a : Artifact)
    (card : gmap string pyval) (context : option (gmap string pyval))
    (w w' : World) (v : Q) :
  predict_with_model E a card context w = (Ok v, w') → (0 <= v <= 100)%Q.
Proof.
  unfold predict_with_model. intros H.
  apply bind_run_ok in H as (? & ? & _ & H).
  apply bind_run_ok in H as (? & ? & _ & H).
  apply bind_run_ok in H as (? & ? & _ & H).
  apply bind_run_ok in H as (? & ? & _ & H).
  apply bind_run_ok in H as (? & ? & _ & H).
  apply bind_run_ok in H as (? & ? & _ & H).
  injection H as <- _. apply np_clip_range.
Qed.

Lemma fallback_range (E : Env) (card : gmap string pyval) (personality : string)
    (w w' : World) (v : Q) :
  _fallback_evaluation E card personality w = (Ok v, w') → (0 <= v <= 100)%Q.
Proof.
  unfold _fallback_evaluation. intros H.
  apply bind_run_ok in H as (? & ? & _ & H).
  apply bind_run_ok in H as (? & ? & _ & H).
  injection H as <- _. apply np_clip_range.
Qed.

(** The path with a model returns when the artifact serves the card. *)
Lemma predict_with_model_returns (E : Env) (a : Artifact)
    (card : gmap string pyval) (context : option (gmap string pyval))
    (w : World) :
  serving E a card → colored card → committing context →
  ∃ v w', predict_with_model E a card context w = (Ok v, w').
Proof.
  intros (features & scaled & y & ys & Hk & Hf & Hs & Hm & Hr) Hcard Hctx.
  unfold predict_with_model.
  rewrite run_lift_bind, Hk.
  rewrite run_lift_bind, Hf, run_lift_bind, Hs, run_lift_bind, Hm.
  rewrite run_lift_bind. simpl. rewrite run_bind.
  rewrite apply_personality_run by done. by eexists _, _.
Qed.

Lemma fallback_returns (E : Env) (card : gmap string pyval)
    (personality : string) (w : World) :
  readable card → ∃ v w', _fallback_evaluation E card personality w = (Ok v, w').
Proof.
  intros H. apply (fallback_rules_returns card personality) in H as [s Hs].
  unfold _fallback_evaluation. rewrite run_lift_bind, Hs.
  by eexists _, _.
Qed.

(** A prediction leaves the cached models as they are, or stores the file
    of the key: the artifact found afterwards was found before. *)
Lemma predict_with_model_models (E : Env) (a : Artifact)
    (card : gmap string pyval) (context : option (gmap string pyval))
    (w : World) :
  loaded_models (predict_with_model E a card context w).2 = loaded_models w.
Proof.
  unfold predict_with_model.
  rewrite run_lift_bind. destruct (keys a) as [[]|]; [|done].
  rewrite run_lift_bind. destruct (extract_features E card); [|done].
  rewrite run_lift_bind. destruct (scaler a _); [|done].
  rewrite run_lift_bind. destruct (base_model a _) as [prediction|]; [|done].
  rewrite run_lift_bind. destruct (first prediction) as [base|]; [|done].
  rewrite run_bind, apply_personality_unfold.
  destruct (Qlt_le_dec _ _); [done |].
  by destruct (commitment_bonus card (config a) context).
Qed.

Lemma fallback_models (E : Env) (card : gmap string pyval)
    (personality : string) (w : World) :
  loaded_models (_fallback_evaluation E card personality w).2 = loaded_models w.
Proof.
  unfold _fallback_evaluation. rewrite run_lift_bind.
  by destruct (fallback_rules card personality).
Qed.

Lemma cached_models (w1 w2 : World) (set_code personality : string) :
  loaded_models w1 = loaded_models w2 →
  cached w1 set_code personality = cached w2 set_code personality.
Proof. unfold cached. by intros ->. Qed.

Lemma predict_keeps_found (E : Env) (card : gmap string pyval)
    (set_code personality : string) (context : option (gmap string pyval))
    (w : World) (a : Artifact) :
  found E (predict_pick_value E card set_code personality context w).2
    set_code personality a →
  found E w set_code personality a.
Proof.
  unfold found.
  destruct (cached w set_code personality) as [a0|] eqn:Hc.
  - rewrite (predict_hit _ _ _ _ _ _ _ Hc).
    rewrite (cached_models _ w) by apply predict_with_model_models.
    by rewrite Hc.
  - destruct (disk E (model_path set_code personality)) as [| |a0] eqn:Hd.
    + intros [H|[_ H]]; [|done]. exfalso. revert H.
      unfold predict_pick_value. rewrite run_bind. unfold is_cached at 1.
      rewrite Hc, bool_decide_false by (by intros [? ?]).
      rewrite run_bind. unfold load_bot_model at 1. rewrite Hd.
      rewrite (cached_models _ w) by apply fallback_models. by rewrite Hc.
    + intros [H|[_ H]]; [|done]. exfalso. revert H.
      unfold predict_pick_value. rewrite run_bind. unfold is_cached at 1.
      rewrite Hc, bool_decide_false by (by intros [? ?]).
      rewrite run_bind. unfold load_bot_model at 1. rewrite Hd.
      rewrite (cached_models _ (count_load w)) by apply fallback_models.
      unfold cached, count_load. simpl. fold (cached w set_code personality).
      by rewrite Hc.
    + rewrite (predict_load _ _ _ _ _ _ _ Hc Hd).
      rewrite (cached_models _ (store w set_code personality a0))
        by apply predict_with_model_models.
      rewrite cached_store. intros [[= ->]|[[=] _]]. by right.
Qed.

(** A prediction on a card of the data model returns. *)
Lemma predict_returns (E : Env) (card : gmap string pyval)
    (set_code personality : string) (context : option (gmap string pyval))
    (w : World) :
  readable card → colored card → committing context →
  (∀ a, found E w set_code personality a → serving E a card) →
  ∃ v w', predict_pick_value E card set_code personality context w = (Ok v, w').
Proof.
  intros Hread Hcol Hctx Hserve.
  destruct (cached w set_code personality) as [a|] eqn:Hc.
  - rewrite (predict_hit _ _ _ _ _ _ _ Hc).
    apply predict_with_model_returns; try done. apply Hserve. by left.
  - destruct (disk E (model_path set_code personality)) as [| |a] eqn:Hd.
    + unfold predict_pick_value. rewrite run_bind. unfold is_cached at 1.
      rewrite Hc, bool_decide_false by (by intros [? ?]).
      rewrite run_bind. unfold load_bot_model at 1. rewrite Hd.
      by apply fallback_returns.
    + unfold predict_pick_value. rewrite run_bind. unfold is_cached at 1.
      rewrite Hc, bool_decide_false by (by intros [? ?]).
      rewrite run_bind. unfold load_bot_model at 1. rewrite Hd.
      by apply fallback_returns.
    + rewrite (predict_load _ _ _ _ _ _ _ Hc Hd).
      apply predict_with_model_returns; try done. apply Hserve. by right.
Qed.

(** C5: whatever predict returns lies between 0 and 100, whatever the model
    answers and whatever the draws are; and predict does return on a card of
    the data model when the artifact it finds serves the card. *)
Theorem predict_in_range (E : Env) (card : gmap string pyval)
    (set_code personality : string) (context : option (gmap string pyval))
    (w : World) :
  (∀ v w', predict_pick_value E card set_code personality context w = (Ok v, w') →
           (0 <= v <= 100)%Q) ∧
  (readable card → colored card → committing context →
   (∀ a, found E w set_code personality a → serving E a card) →
   ∃ v w', predict_pick_value E card set_code personality context w = (Ok v, w') ∧
           (0 <= v <= 100)%Q).
Proof.
  assert (∀ v w', predict_pick_value E card set_code personality context w
                  = (Ok v, w') → (0 <= v <= 100)%Q) as Hrange.
  { intros v w'.
    destruct (cached w set_code personality) as [a|] eqn:Hc.
    - rewrite (predict_hit _ _ _ _ _ _ _ Hc). apply predict_with_model_range.
    - destruct (disk E (model_path set_code personality)) as [| |a] eqn:Hd.
      + unfold predict_pick_value. rewrite run_bind. unfold is_cached at 1.
        rewrite Hc, bool_decide_false by (by intros [? ?]).
        rewrite run_bind. unfold load_bot_model at 1. rewrite Hd.
        apply fallback_range.
      + unfold predict_pick_value. rewrite run_bind. unfold is_cached at 1.
        rewrite Hc, bool_decide_false by (by intros [? ?]).
        rewrite run_bind. unfold load_bot_model at 1. rewrite Hd.
        apply fallback_range.
      + rewrite (predict_load _ _ _ _ _ _ _ Hc Hd).
        apply predict_with_model_range. }
  split; [exact Hrange |].
  intros Hread Hcol Hctx Hserve.
  destruct (predict_returns E card set_code personality context w)
    as (v & w' & H); try done.
  exists v, w'. split; [done | by eapply Hrange].
Qed.

Lemma predict_in_range_witness :
  (predict_pick_value Examples.stocked Examples.elf "DTK" "gold" None
     Examples.fresh).1 = Ok 100%Q ∧ (0 <= 100 <= 100)%Q.
Proof.
  split; [reflexivity |].
  eapply (proj1 (predict_in_range Examples.stocked Examples.elf "DTK" "gold"
                   None Examples.fresh)).
  reflexivity.
Defined.

(** ** Sorting *)

Section sort_by.
Context {A : Type} (key : A → Q).

Lemma insert_by_perm (x : A) (l : list A) : insert_by key x l ≡ₚ x :: l.
Proof.
  induction l as [|y l IH]; simpl; [done |].
  destruct (Qlt_le_dec (key x) (key y)); [done |].
  rewrite IH. apply Permutation_swap.
Qed.

Lemma fold_insert_perm (l acc : list A) :
  fold_left (λ sorted x, insert_by key x sorted) l acc ≡ₚ (acc ++ l)%list.
Proof.
  revert acc. induction l as [|x l IH]; intros acc; simpl.
  - by rewrite app_nil_r.
  - rewrite IH, insert_by_perm. apply Permutation_middle.
Qed.

Lemma sort_by_perm (l : list A) : sort_by key l ≡ₚ l.
Proof. unfold sort_by. by rewrite fold_insert_perm. Qed.

Lemma sort_by_reverse_perm (l : list A) : sort_by_reverse key l ≡ₚ l.
Proof.
  unfold sort_by_reverse. by rewrite <- Permutation_rev, sort_by_perm,
    <- Permutation_rev.
Qed.

(** Inserting keeps a list sorted for any transitive order that places
    the new element after the elements that are not greater and before
    those that are. *)
Lemma insert_by_sorted (R : relation A) `{!Transitive R} (x : A) (l : list A) :
  (∀ y, y ∈ l → ((key x < key y)%Q → R x y) ∧ ((key y <= key x)%Q → R y x)) →
  StronglySorted R l → StronglySorted R (insert_by key x l).
Proof.
  induction l as [|y l IH]; intros Hx Hl; simpl.
  - repeat constructor.
  - apply StronglySorted_cons in Hl as [Hy Hl].
    destruct (Qlt_le_dec (key x) (key y)) as [Hlt|Hle].
    + assert (R x y) as Hxy by (apply Hx; [left | done]).
      apply StronglySorted_cons. split.
      * constructor; [done |]. rewrite Forall_forall in Hy |- *.
        intros z Hz. by transitivity y; [|apply Hy].
      * by apply StronglySorted_cons.
    + apply StronglySorted_cons. split.
      * rewrite Forall_forall in Hy |- *. intros z Hz.
        rewrite insert_by_perm in Hz. apply elem_of_cons in Hz as [->|Hz].
        -- apply Hx; [left | done].
        -- by apply Hy.
      * apply IH; [|done]. intros z Hz. apply Hx. by right.
Qed.
End sort_by.

(** Ascending score, and among equal scores the larger index first: the
    order of the list before the final reversal. *)
Lemma ranked_before_flip_trans : Transitive (flip ranked_before).
Proof.
  intros a b c. unfold flip, ranked_before.
  intros [H1|[H1 H1']] [H2|[H2 H2']].
  - left. lra.
  - left. lra.
  - left. lra.
  - right. split; [lra | lia].
Qed.

Lemma fold_insert_ranked (l acc : list (nat * Q)) :
  StronglySorted (flip ranked_before) acc →
  StronglySorted (λ a b, (b.1 < a.1)%nat) l →
  (∀ a b, a ∈ acc → b ∈ l → (b.1 < a.1)%nat) →
  StronglySorted (flip ranked_before)
    (fold_left (λ sorted x, insert_by snd x sorted) l acc).
Proof.
  revert acc. induction l as [|x l IH]; intros acc Hacc Hl Hlt; simpl; [done |].
  apply StronglySorted_cons in Hl as [Hx Hl]. rewrite Forall_forall in Hx.
  apply IH; [|done|].
  - apply insert_by_sorted; [apply ranked_before_flip_trans | | done].
    intros y Hy. assert (x.1 < y.1)%nat as Hi by (apply Hlt; [done | left]).
    unfold flip, ranked_before. split.
    + intros H. by left.
    + intros H. destruct (Qlt_le_dec y.2 x.2); [by left | right].
      split; [lra | done].
  - intros a b Ha Hb. rewrite insert_by_perm in Ha.
    apply elem_of_cons in Ha as [->|Ha].
    + by apply Hx.
    + apply Hlt; [done | by right].
Qed.

Lemma StronglySorted_rev {A} (R : relation A) (l : list A) :
  StronglySorted R l → StronglySorted (flip R) (rev l).
Proof.
  induction 1 as [|x l Hl IH Hx]; simpl; [constructor |].
  apply StronglySorted_app_2; [|done | repeat constructor].
  intros a b Ha Hb. apply list_elem_of_singleton in Hb as ->.
  rewrite Forall_forall in Hx. apply Hx.
  apply list_elem_of_In, in_rev. by apply list_elem_of_In.
Qed.

(** Sorting pairs whose indices ascend by descending score leaves equal
    scores in ascending index order. *)
Lemma sort_by_reverse_ranked (l : list (nat * Q)) :
  StronglySorted (λ a b, (a.1 < b.1)%nat) l →
  StronglySorted ranked_before (sort_by_reverse snd l).
Proof.
  intros Hl. unfold sort_by_reverse.
  apply (StronglySorted_rev (flip ranked_before)).
  apply fold_insert_ranked.
  - constructor.
  - by apply (StronglySorted_rev (λ a b : nat * Q, (a.1 < b.1)%nat)).
  - intros a b Ha. by apply elem_of_nil in Ha.
Qed.

(** ** The Ranker *)

Lemma seq_ascending (i n : nat) : StronglySorted lt (seq i n).
Proof.
  revert i. induction n as [|n IH]; intros i; simpl; constructor; [done |].
  apply Forall_forall. intros j Hj. apply elem_of_seq in Hj. lia.
Qed.

Lemma indices_ascending (i n : nat) (scored : list (nat * Q)) :
  scored.*1 = seq i n → StronglySorted (λ a b, (a.1 < b.1)%nat) scored.
Proof.
  pose proof (seq_ascending i n) as Hs. intros H. rewrite <- H in Hs. clear H.
  induction scored as [|a scored IH]; [constructor |].
  rewrite fmap_cons in Hs. apply StronglySorted_cons in Hs as [Ha Hs].
  constructor; [by apply IH |].
  apply Forall_forall. intros b Hb.
  eapply Forall_forall in Ha; [exact Ha |]. by apply list_elem_of_fmap_2.
Qed.

(** The loop of get_pick_rankings pairs every position with the score that
    predict returned for the card at that position. *)
Lemma rank_from_scored (E : Env) (cards : list (gmap string pyval))
    (set_code personality : string) (context : option (gmap string pyval)) :
  ∀ (i : nat) (w w' : World) (scored : list (nat * Q)),
    rank_from E i cards set_code personality context w = (Ok scored, w') →
    scored.*1 = seq i (length cards) ∧
    ∀ j s, (j, s) ∈ scored →
      ∃ card w1 w2, (i <= j)%nat ∧ cards !! (j - i)%nat = Some card ∧
        predict_pick_value E card set_code personality context w1 = (Ok s, w2).
Proof.
  induction cards as [|card cards IH]; intros i w w' scored H; simpl in H.
  - injection H as <- _. split; [done |]. intros j s Hj. by apply elem_of_nil in Hj.
  - apply bind_run_ok in H as (score & w1 & Hscore & H).
    apply bind_run_ok in H as (rest & w2 & Hrest & H).
    injection H as <- _. destruct (IH _ _ _ _ Hrest) as [Hidx Hsc].
    split; [by rewrite fmap_cons, Hidx |].
    intros j s Hj. apply elem_of_cons in Hj as [[= -> ->]|Hj].
    + exists card, w, w1. rewrite Nat.sub_diag. done.
    + destruct (Hsc _ _ Hj) as (c & wa & wb & Hle & Hc & Hp).
      exists c, wa, wb. split_and!; [lia | | done].
      replace (j - i)%nat with (S (j - S i)) by lia. done.
Qed.

(** The loop returns on rankable candidates. *)
Lemma rank_from_returns (E : Env) (cards : list (gmap string pyval))
    (set_code personality : string) (context : option (gmap string pyval)) :
  committing context →
  ∀ (i : nat) (w : World),
    rankable E w set_code personality cards →
    ∃ scored w',
      rank_from E i cards set_code personality context w = (Ok scored, w').
Proof.
  intros Hctx. induction cards as [|card cards IH]; intros i w Hcards; simpl.
  - by eexists _, _.
  - destruct (Hcards card) as (Hread & Hcol & Hserve); [left |].
    destruct (predict_returns E card set_code personality context w)
      as (v & w1 & Hv); try done.
    destruct (IH (S i) w1) as (scored & w2 & Hscored).
    { intros c Hc. destruct (Hcards c) as (? & ? & Hs); [by right |].
      split_and!; try done. intros a Ha. apply Hs.
      apply (predict_keeps_found E card set_code personality context w).
      by rewrite Hv. }
    rewrite run_bind, Hv, run_bind, Hscored. by eexists _, _.
Qed.

(** C6: the ranking holds every original index once, each with the score
    predict returned for the card at that index, in descending order of
    score, and pairs of equal score stand in ascending order of index; and
    rank does return on candidates of the data model that the artifact of
    the key serves. *)
Theorem rankings_descending_stable (E : Env) (cards : list (gmap string pyval))
    (set_code personality : string) (context : option (gmap string pyval))
    (w : World) :
  (∀ rankings w',
     get_pick_rankings E cards set_code personality context w = (Ok rankings, w') →
     rankings.*1 ≡ₚ seq 0 (length cards) ∧
     (∀ i s, (i, s) ∈ rankings →
        ∃ card w1 w2, cards !! i = Some card ∧
          predict_pick_value E card set_code personality context w1 = (Ok s, w2)) ∧
     StronglySorted ranked_before rankings) ∧
  (committing context → rankable E w set_code personality cards →
   ∃ rankings w',
     get_pick_rankings E cards set_code personality context w = (Ok rankings, w')).
Proof.
  unfold get_pick_rankings. split.
  - intros rankings w' H.
    apply bind_run_ok in H as (scored & w1 & Hscored & H).
    injection H as <- _.
    destruct (rank_from_scored E cards set_code personality context 0 w w1
                scored Hscored) as [Hidx Hsc].
    split_and!.
    + by rewrite sort_by_reverse_perm, Hidx.
    + intros i s Hi. rewrite sort_by_reverse_perm in Hi.
      destruct (Hsc _ _ Hi) as (c & wa & wb & _ & Hc & Hp).
      rewrite Nat.sub_0_r in Hc. by exists c, wa, wb.
    + apply sort_by_reverse_ranked. by eapply indices_ascending.
  - intros Hctx Hcards.
    destruct (rank_from_returns E cards set_code personality context Hctx 0 w Hcards)
      as (scored & w' & Hscored).
    rewrite run_bind, Hscored. by eexists _, _.
Qed.

Lemma rankings_descending_stable_witness :
  ∃ rankings,
    (get_pick_rankings Examples.bare
       [Examples.bolt; Examples.elf; Examples.bolt; Examples.elf]
       "DTK" "gold" None Examples.fresh).1 = Ok rankings ∧
    rankings.*1 = [1; 3; 0; 2]%nat ∧
    StronglySorted ranked_before rankings.
Proof.
  eexists. split; [vm_compute; reflexivity |]. split; [reflexivity |].
  eapply (rankings_descending_stable Examples.bare
            [Examples.bolt; Examples.elf; Examples.bolt; Examples.elf]
            "DTK" "gold" None Examples.fresh).
  vm_compute. reflexivity.
Defined.

(** ** The Selector *)

(** The weighted draw among the first [n] positions: position [k] is drawn
    when the draw, stretched to the total weight, falls in the stretch of
    the cumulative weights that belongs to [k]. *)
Lemma weighted_choice (n : nat) (r : Q) :
  (1 <= n <= 3)%nat → (0 <= r < 1)%Q →
  ∃ k, (k < n)%nat ∧
    random_choices (seq 0 n) (take n [0.6; 0.3; 0.1]%Q) r = Ok k ∧
    (sum (take k (take n [0.6; 0.3; 0.1])) <= r * sum (take n [0.6; 0.3; 0.1])
     < sum (take (S k) (take n [0.6; 0.3; 0.1])))%Q.
Proof.
  intros Hn Hr.
  assert (n = 1 ∨ n = 2 ∨ n = 3)%nat as [-> | [-> | ->]] by lia.
  - exists 0%nat. split; [lia |]. split; [done |]. simpl. lra.
  - unfold random_choices. simpl.
    destruct (Qlt_le_dec (r * (0.6 + 0.3)) 0.6) as [H|H].
    + exists 0%nat. split; [lia |]. split; [done |]. simpl. lra.
    + exists 1%nat. split; [lia |]. split; [done |]. simpl. lra.
  - unfold random_choices. simpl.
    destruct (Qlt_le_dec (r * (0.6 + 0.3 + 0.1)) 0.6) as [H|H];
      [|destruct (Qlt_le_dec (r * (0.6 + 0.3 + 0.1)) (0.6 + 0.3)) as [H'|H']].
    + exists 0%nat. split; [lia |]. split; [done |]. simpl. lra.
    + exists 1%nat. split; [lia |]. split; [done |]. simpl. lra.
    + exists 2%nat. split; [lia |]. split; [done |]. simpl. lra.
Qed.

Lemma unknown_personality (personality : string) :
  personality ∉ ["bronze"; "silver"; "gold"; "mythic"] →
  BOT_PERSONALITIES !! personality = None ∧
  personality_multipliers !! personality = None.
Proof.
  intros H. rewrite !not_elem_of_cons in H. destruct H as (? & ? & ? & ? & _).
  unfold BOT_PERSONALITIES, personality_multipliers. simpl.
  by rewrite !lookup_insert_ne, !lookup_empty by done.
Qed.

Lemma select_unfold (E : Env) (rankings : list (nat * Q)) (personality : string)
    (w : World) :
  (select E rankings personality w).1
  = if Qlt_le_dec (py_random E (py_cursor w))
         (skill_level (default silver (BOT_PERSONALITIES !! personality)))
    then index_of rankings 0
    else
      random_choices (seq 0 (Nat.min 3 (length rankings)))
        (take (Nat.min 3 (length rankings)) [0.6; 0.3; 0.1]%Q)
        (py_random E (S (py_cursor w)))
      ≫= index_of rankings.
Proof.
  unfold select. rewrite run_bind. unfold random_random at 1.
  destruct (Qlt_le_dec _ _); [done |].
  rewrite run_bind. unfold random_random at 1. rewrite run_lift_bind.
  simpl py_cursor. by destruct (random_choices _ _ _).
Qed.

(** The draw of lines 245-256: below the skill of the profile the top
    entry, otherwise a weighted draw among the first three. *)
Lemma select_run (E : Env) (rankings : list (nat * Q)) (personality : string)
    (w : World) :
  rankings ≠ [] →
  let config := default silver (BOT_PERSONALITIES !! personality) in
  let r := py_random E (py_cursor w) in
  let r' := py_random E (S (py_cursor w)) in
  let n := Nat.min 3 (length rankings) in
  let weights := take n [0.6; 0.3; 0.1]%Q in
  ((r < skill_level config)%Q →
   ∃ top, rankings !! 0%nat = Some top ∧
     (select E rankings personality w).1 = Ok top.1) ∧
  ((skill_level config <= r)%Q → (0 <= r' < 1)%Q →
   ∃ k entry, (k < n)%nat ∧ rankings !! k = Some entry ∧
     (select E rankings personality w).1 = Ok entry.1 ∧
     (sum (take k weights) <= r' * sum weights < sum (take (S k) weights))%Q).
Proof.
  intros Hne config r r' n weights.
  assert (1 <= n <= 3)%nat as Hn.
  { unfold n. destruct rankings; [done | cbn [length]; lia]. }
  rewrite select_unfold. fold config r r' n. split.
  - intros Hr. destruct (Qlt_le_dec r (skill_level config)) as [_|?]; [|lra].
    destruct rankings as [|top rest]; [done |]. by exists top.
  - intros Hr Hr'. destruct (Qlt_le_dec r (skill_level config)) as [?|_]; [lra |].
    destruct (weighted_choice n r' Hn Hr') as (k & Hk & Hchoice & Hw).
    destruct (lookup_lt_is_Some_2 rankings k) as [entry Hentry];
      [unfold n in Hk; lia |].
    exists k, entry. split_and!; try done; try apply Hw.
    rewrite Hchoice. simpl. unfold index_of. by rewrite Hentry.
Qed.

(** The ranking of one candidate is that candidate with its score. *)
Lemma rankings_single (E : Env) (card : gmap string pyval)
    (set_code personality : string) (context : option (gmap string pyval))
    (w w1 : World) (rankings : list (nat * Q)) :
  get_pick_rankings E [card] set_code personality context w = (Ok rankings, w1) →
  ∃ score, rankings = [(0%nat, score)].
Proof.
  unfold get_pick_rankings. intros H.
  apply bind_run_ok in H as (scored & w2 & Hscored & H).
  injection H as <- _. simpl in Hscored.
  apply bind_run_ok in Hscored as (score & w3 & _ & Hscored).
  injection Hscored as <- _. by exists score.
Qed.

(** The claim of C7 as stated fails: the value choose returns on an empty
    candidate list is the value it returns for the pick of a candidate, so
    it is no sentinel.  With the bolt alone in the pack choose picks it and
    returns its index, 0, as it does with no card in the pack. *)
Lemma choose_pick_zero_is_a_pick :
  (choose_pick Examples.bare [Examples.bolt] "DTK" "gold" None
     Examples.fresh).1 = Ok 0%nat ∧
  (choose_pick Examples.bare [] "DTK" "gold" None Examples.fresh).1
  = (choose_pick Examples.bare [Examples.bolt] "DTK" "gold" None
       Examples.fresh).1.
Proof. split; reflexivity. Qed.

(** C7, as amended: on an empty candidate list choose returns 0 and raises
    nothing; no prediction and no draw is made and the world is unchanged.
    The value 0 is no sentinel: whenever a single candidate can be ranked,
    choose returns 0 for it as well, the index of that candidate, whatever
    the personality and the draws. *)
Theorem choose_pick_empty (E : Env) (set_code personality : string)
    (context : option (gmap string pyval)) (w : World) :
  choose_pick E [] set_code personality context w = (Ok 0%nat, w) ∧
  ∀ card,
    returns (get_pick_rankings E [card] set_code personality context w).1 →
    (choose_pick E [card] set_code personality context w).1 = Ok 0%nat.
Proof.
  split; [reflexivity |]. intros card [rankings Hrank].
  destruct (get_pick_rankings E [card] set_code personality context w)
    as [r w1] eqn:Hrun.
  simpl in Hrank. subst r.
  destruct (rankings_single _ _ _ _ _ _ _ _ Hrun) as [score ->].
  unfold choose_pick. rewrite run_bind, Hrun, select_unfold.
  by destruct (Qlt_le_dec _ _).
Qed.

Lemma choose_pick_empty_witness :
  (choose_pick Examples.stocked [Examples.elf] "DTK" "gold" Examples.green
     Examples.fresh).1 = Ok 0%nat.
Proof.
  apply (proj2 (choose_pick_empty Examples.stocked "DTK" "gold" Examples.green
                  Examples.fresh) Examples.elf).
  eexists. vm_compute. reflexivity.
Defined.

(** C10: for a personality outside bronze, silver, gold and mythic, choose
    uses the silver profile: when the draw of random() is below 0.5 it
    returns the top-ranked original index, otherwise the original index of
    one of the first min(3, n) ranked candidates, the k-th being drawn when a
    second draw, stretched to the total of the truncated weights 0.6, 0.3,
    0.1, falls in the stretch of weight k; the Fallback Evaluator multiplies
    by 1.0 for such a personality. *)
Theorem choose_pick_unknown_personality (E : Env)
    (cards : list (gmap string pyval)) (set_code personality : string)
    (context : option (gmap string pyval)) (w w1 : World)
    (rankings : list (nat * Q)) :
  personality ∉ ["bronze"; "silver"; "gold"; "mythic"] →
  cards ≠ [] →
  get_pick_rankings E cards set_code personality context w = (Ok rankings, w1) →
  let r := py_random E (py_cursor w1) in
  let r' := py_random E (S (py_cursor w1)) in
  let n := Nat.min 3 (length cards) in
  let weights := take n [0.6; 0.3; 0.1]%Q in
  ((r < 0.5)%Q →
   ∃ top, rankings !! 0%nat = Some top ∧
     (choose_pick E cards set_code personality context w).1 = Ok top.1) ∧
  ((0.5 <= r)%Q → (0 <= r' < 1)%Q →
   ∃ k entry, (k < n)%nat ∧ rankings !! k = Some entry ∧
     (choose_pick E cards set_code personality context w).1 = Ok entry.1 ∧
     (sum (take k weights) <= r' * sum weights < sum (take (S k) weights))%Q) ∧
  default 1.0%Q (personality_multipliers !! personality) = 1.0%Q.
Proof.
  intros Hp Hcards Hrank r r' n weights.
  destruct (unknown_personality _ Hp) as [Hbot Hmul].
  assert (length rankings = length cards) as Hlen.
  { unfold get_pick_rankings in Hrank.
    apply bind_run_ok in Hrank as (scored & w2 & Hscored & H).
    injection H as <- _.
    apply rank_from_scored in Hscored as [Hidx _].
    rewrite (Permutation_length (sort_by_reverse_perm snd scored)).
    by rewrite <- (length_fmap fst), Hidx, length_seq. }
  assert (rankings ≠ []) as Hne.
  { intros ->. destruct cards; [done | discriminate Hlen]. }
  assert (choose_pick E cards set_code personality context w
          = select E rankings personality w1) as ->.
  { unfold choose_pick. rewrite run_bind, Hrank. by destruct rankings. }
  pose proof (select_run E rankings personality w1 Hne) as Hsel.
  rewrite Hbot, Hlen in Hsel. rewrite Hmul. simpl in Hsel.
  destruct Hsel as [Htop Hrest]. split_and!; done.
Qed.

Lemma choose_pick_unknown_personality_witness :
  ∃ entry,
    (get_pick_rankings Examples.bare [Examples.bolt; Examples.elf] "DTK"
       "platinum" None Examples.fresh).1 = Ok [entry.1; entry.2] ∧
    (choose_pick Examples.bare [Examples.bolt; Examples.elf] "DTK" "platinum"
       None Examples.fresh).1 = Ok entry.1.1.
Proof.
  eexists (_, _).
  destruct (choose_pick_unknown_personality Examples.bare
              [Examples.bolt; Examples.elf] "DTK" "platinum" None
              Examples.fresh _ _
              ltac:(by apply (bool_decide_unpack _))
              ltac:(discriminate) ltac:(vm_compute; reflexivity))
    as (_ & H & _).
  destruct H as (k & e & Hk & He & Hc & Hw).
  - vm_compute. discriminate.
  - vm_compute. split; [discriminate | reflexivity].
  - split; [vm_compute; reflexivity |].
    rewrite Hc. f_equal.
    assert (k = 0)%nat as ->.
    { destruct k as [|[|k]]; [done | | simpl in Hk; lia].
      vm_compute in Hw. destruct Hw as [Hw _]. by destruct Hw. }
    simpl in He. by injection He as <-.
Defined.

(** ** The feature order an artifact expects *)

Lemma predict_with_model_result (E : Env) (a : Artifact)
    (card : gmap string pyval) (context : option (gmap string pyval))
    (w1 w2 : World) :
  np_cursor w1 = np_cursor w2 →
  (predict_with_model E a card context w1).1
  = (predict_with_model E a card context w2).1.
Proof.
  intros Hnp. unfold predict_with_model.
  rewrite !run_lift_bind. destruct (keys a) as [[]|]; [|done].
  destruct (extract_features E card); [|done].
  rewrite !run_lift_bind. destruct (scaler a _); [|done].
  rewrite !run_lift_bind. destruct (base_model a _) as [prediction|]; [|done].
  rewrite !run_lift_bind. destruct (first prediction) as [base|]; [|done].
  rewrite !run_bind.
  pose proof (apply_personality_result E base card (config a) context w1 w2 Hnp) as H.
  destruct (_apply_personality E base card (config a) context w1) as [[]],
    (_apply_personality E base card (config a) context w2) as [[]];
    simpl in H; by simplify_eq.
Qed.

(** The claim of C8 as stated fails: the artifact stored for DTK and silver
    expects the features in another order than the Feature Extractor's, and
    predict returns a score, ten times the cost value taken for the number
    of colors and adjusted, without raising. *)
Lemma predict_accepts_mismatch :
  cached Examples.fresh "DTK" "silver" = None ∧
  disk Examples.stocked (model_path "DTK" "silver") = Pickled Examples.misordered ∧
  feature_order Examples.misordered ≠ FEATURE_ORDER ∧
  ∃ v, (predict_pick_value Examples.stocked Examples.elf "DTK" "silver" None
          Examples.fresh).1 = Ok v ∧ (v == 48.6)%Q.
Proof.
  split_and!; [done | done | discriminate |].
  eexists. split; [vm_compute; reflexivity | reflexivity].
Qed.

Lemma result_bind_ok {A B} (x : A) (k : A → result B) : (Ok x ≫= k) = k x.
Proof. reflexivity. Qed.

(** The outcome of the path with a model, step by step. *)
Lemma predict_with_model_outcome (E : Env) (a : Artifact)
    (card : gmap string pyval) (context : option (gmap string pyval))
    (w : World) :
  (predict_with_model E a card context w).1
  = (_ ← keys a;
     features ← extract_features E card;
     features_scaled ← scaler a features;
     prediction ← base_model a features_scaled;
     base_score ← first prediction;
     adjusted_score ← (_apply_personality E base_score card (config a)
                         context w).1;
     Ok (np_clip adjusted_score 0 100)).
Proof.
  unfold predict_with_model.
  rewrite run_lift_bind. destruct (keys a) as [[]|]; [|reflexivity].
  rewrite result_bind_ok, run_lift_bind.
  destruct (extract_features E card); [|reflexivity].
  rewrite result_bind_ok, run_lift_bind.
  destruct (scaler a _); [|reflexivity].
  rewrite result_bind_ok, run_lift_bind.
  destruct (base_model a _) as [prediction|]; [|reflexivity].
  rewrite result_bind_ok, run_lift_bind.
  destruct (first prediction) as [base|]; [|reflexivity].
  rewrite result_bind_ok, run_bind.
  destruct (_apply_personality E base card (config a) context w) as [[]];
    reflexivity.
Qed.

(** C8, as amended: when an artifact is found for the key, predict checks
    nothing about the feature order it expects and has no failure of its own
    for a mismatch.  The outcome is the same whatever order the artifact
    expects, and it is the first failure of: the subscripts of the unpickled
    object, the Feature Extractor, the scaler on the extractor's vector, the
    model, the first entry of the model's answer (IndexError on an empty
    answer), the Personality Adjuster; and without a failure the adjusted
    score clipped to the interval from 0 to 100. *)
Theorem predict_ignores_feature_order (E : Env) (card : gmap string pyval)
    (set_code personality : string) (context : option (gmap string pyval))
    (w : World) (a : Artifact) (order : list string) :
  found E w set_code personality a →
  (predict_pick_value E card set_code personality context w).1
  = (predict_with_model E (reordered order a) card context w).1 ∧
  (predict_pick_value E card set_code personality context w).1
  = (_ ← keys a;
     features ← extract_features E card;
     features_scaled ← scaler a features;
     prediction ← base_model a features_scaled;
     base_score ← first prediction;
     adjusted_score ← (_apply_personality E base_score card (config a)
                         context w).1;
     Ok (np_clip adjusted_score 0 100)).
Proof.
  intros Hfound.
  assert ((predict_pick_value E card set_code personality context w).1
          = (predict_with_model E a card context w).1) as ->.
  { destruct Hfound as [Hhit | [Hmiss Hdisk]].
    - by rewrite (predict_hit _ _ _ _ _ _ _ Hhit).
    - rewrite (predict_load _ _ _ _ _ _ _ Hmiss Hdisk).
      by rewrite (predict_with_model_result E a card context _ w). }
  split; [done | apply predict_with_model_outcome].
Qed.

Lemma predict_ignores_feature_order_witness :
  (predict_pick_value Examples.stocked Examples.elf "DTK" "silver" None
     Examples.fresh).1
  = (predict_with_model Examples.stocked
       (reordered FEATURE_ORDER Examples.misordered) Examples.elf None
       Examples.fresh).1.
Proof.
  apply (predict_ignores_feature_order Examples.stocked Examples.elf "DTK"
           "silver" None Examples.fresh Examples.misordered FEATURE_ORDER).
  right. split; reflexivity.
Defined.

(** ** Callers that miss together *)

Import Interleaved.

Lemma run_cons (E : Env) (set_code personality : string) (i : nat)
    (schedule : list nat) (p : Pool) :
  run E set_code personality (i :: schedule) p
  = run E set_code personality schedule (step E set_code personality i p).
Proof. reflexivity. Qed.

Lemma run_app (E : Env) (set_code personality : string)
    (first second : list nat) (p : Pool) :
  run E set_code personality (first ++ second)%list p
  = run E set_code personality second (run E set_code personality first p).
Proof. apply fold_left_app. Qed.

(** A caller that tests an empty cache becomes [Missed]; the world stays. *)
Lemma step_entering_miss (E : Env) (set_code personality : string) (i : nat)
    (p : Pool) :
  callers p !! i = Some Entering →
  cached (world p) set_code personality = None →
  step E set_code personality i p
  = {| world := world p; callers := <[i := Missed]> (callers p) |}.
Proof.
  intros Hi Hc. unfold step, is_cached. rewrite Hi, Hc.
  by rewrite bool_decide_false by (by intros [? ?]).
Qed.

(** A caller that tests a filled cache is served without a load. *)
Lemma step_entering_hit (E : Env) (set_code personality : string) (i : nat)
    (p : Pool) (a : Artifact) :
  callers p !! i = Some Entering →
  cached (world p) set_code personality = Some a →
  step E set_code personality i p
  = {| world := world p; callers := <[i := Served]> (callers p) |}.
Proof.
  intros Hi Hc. unfold step, is_cached. rewrite Hi, Hc.
  by rewrite bool_decide_true by eauto.
Qed.

(** A caller that has missed loads the file itself. *)
Lemma step_missed_load (E : Env) (set_code personality : string) (i : nat)
    (p : Pool) (a : Artifact) :
  callers p !! i = Some Missed →
  disk E (model_path set_code personality) = Pickled a →
  step E set_code personality i p
  = {| world := store (world p) set_code personality a;
       callers := <[i := Served]> (callers p) |}.
Proof.
  intros Hi Hd. unfold step, load_bot_model. by rewrite Hi, Hd.
Qed.

(** While nobody loads, every caller of the schedule misses. *)
Lemma run_checks (E : Env) (set_code personality : string) (checks : list nat) :
  ∀ p : Pool,
    NoDup checks →
    cached (world p) set_code personality = None →
    (∀ i, i ∈ checks → callers p !! i = Some Entering) →
    world (run E set_code personality checks p) = world p ∧
    ∀ j, callers (run E set_code personality checks p) !! j
         = if decide (j ∈ checks) then Some Missed else callers p !! j.
Proof.
  induction checks as [|i checks IH]; intros p Hnd Hc Hin.
  - split; [done |]. intros j. by rewrite decide_False by apply not_elem_of_nil.
  - apply NoDup_cons in Hnd as [Hi Hnd].
    rewrite run_cons, step_entering_miss by (try done; apply Hin; left).
    destruct (IH {| world := world p; callers := <[i := Missed]> (callers p) |})
      as [Hw Hcs]; try done.
    { intros j Hj. simpl. rewrite list_lookup_insert_ne by (by intros ->).
      apply Hin. by right. }
    split; [done |]. intros j. rewrite Hcs. simpl.
    assert (i < length (callers p))%nat as Hlen.
    { eapply lookup_lt_Some, Hin. left. }
    destruct (decide (j ∈ checks)) as [Hj|Hj].
    + rewrite decide_True; [done | by right].
    + destruct (decide (j = i)) as [->|Hne].
      * rewrite decide_True by left. by rewrite list_lookup_insert_eq.
      * rewrite decide_False by (rewrite elem_of_cons; by intros [?|?]).
        by rewrite list_lookup_insert_ne.
Qed.

(** Every caller that has missed performs a load of its own. *)
Lemma run_loads (E : Env) (set_code personality : string) (a : Artifact)
    (lds : list nat) :
  ∀ p : Pool,
    NoDup lds →
    disk E (model_path set_code personality) = Pickled a →
    (∀ i, i ∈ lds → callers p !! i = Some Missed) →
    loads (world (run E set_code personality lds p))
    = (loads (world p) + length lds)%nat ∧
    ∀ j, callers (run E set_code personality lds p) !! j
         = if decide (j ∈ lds) then Some Served else callers p !! j.
Proof.
  induction lds as [|i lds IH]; intros p Hnd Hd Hin.
  - split; [simpl; lia |]. intros j. by rewrite decide_False by apply not_elem_of_nil.
  - apply NoDup_cons in Hnd as [Hi Hnd].
    rewrite run_cons, (step_missed_load _ _ _ _ _ a) by (try done; apply Hin; left).
    destruct (IH {| world := store (world p) set_code personality a;
                    callers := <[i := Served]> (callers p) |})
      as [Hl Hcs]; try done.
    { intros j Hj. simpl. rewrite list_lookup_insert_ne by (by intros ->).
      apply Hin. by right. }
    split; [rewrite Hl; simpl; lia |]. intros j. rewrite Hcs. simpl.
    assert (i < length (callers p))%nat as Hlen.
    { eapply lookup_lt_Some, Hin. left. }
    destruct (decide (j ∈ lds)) as [Hj|Hj].
    + rewrite decide_True; [done | by right].
    + destruct (decide (j = i)) as [->|Hne].
      * rewrite decide_True by left. by rewrite list_lookup_insert_eq.
      * rewrite decide_False by (rewrite elem_of_cons; by intros [?|?]).
        by rewrite list_lookup_insert_ne.
Qed.

(** The claim of C9 as stated fails: two callers for DTK and gold test the
    empty cache one after the other, and each then loads the file. *)
Lemma two_misses_two_loads :
  let p := run Examples.stocked "DTK" "gold" [0; 1; 0; 1]%nat
             {| world := Examples.fresh; callers := [Entering; Entering] |} in
  callers (run Examples.stocked "DTK" "gold" [0; 1]%nat
             {| world := Examples.fresh; callers := [Entering; Entering] |})
  = [Missed; Missed] ∧
  callers p = [Served; Served] ∧ loads (world p) = 2%nat.
Proof. by vm_compute. Qed.

(** C9, as amended: the cache has no single-flight; when N callers test the
    cache for a key before any of them has loaded, all N miss and each
    performs its own load of the file, N loads in all, in whatever order the
    callers test and load; a caller that tests the cache once an artifact is
    stored is served without a load. *)
Theorem every_miss_loads (E : Env) (set_code personality : string)
    (w : World) (a : Artifact) (n : nat) (checks lds : list nat) :
  cached w set_code personality = None →
  disk E (model_path set_code personality) = Pickled a →
  checks ≡ₚ seq 0 n → lds ≡ₚ seq 0 n →
  let p0 := {| world := w; callers := replicate n Entering |} in
  (callers (run E set_code personality checks p0) = replicate n Missed ∧
   callers (run E set_code personality (checks ++ lds)%list p0)
   = replicate n Served ∧
   loads (world (run E set_code personality (checks ++ lds)%list p0))
   = (loads w + n)%nat) ∧
  (∀ (p : Pool) (i : nat) (b : Artifact),
     callers p !! i = Some Entering →
     cached (world p) set_code personality = Some b →
     callers (step E set_code personality i p) !! i = Some Served ∧
     loads (world (step E set_code personality i p)) = loads (world p)).
Proof.
  intros Hc Hd Hchecks Hlds p0. split; cycle 1.
  { intros p i b Hi Hb. rewrite (step_entering_hit _ _ _ _ _ b) by done.
    split; [|done]. simpl. apply list_lookup_insert_eq.
    by eapply lookup_lt_Some. }
  assert (∀ l : list nat, l ≡ₚ seq 0 n → NoDup l ∧ ∀ i, i ∈ l ↔ (i < n)%nat)
    as Hseq.
  { intros l Hl. split.
    - rewrite Hl. apply NoDup_seq.
    - intros i. rewrite Hl, elem_of_seq. lia. }
  destruct (Hseq _ Hchecks) as [Hnd1 Hin1], (Hseq _ Hlds) as [Hnd2 Hin2].
  destruct (run_checks E set_code personality checks p0 Hnd1 Hc) as [Hw1 Hcs1].
  { intros i Hi. apply Hin1 in Hi. simpl. by apply lookup_replicate_2. }
  assert (callers (run E set_code personality checks p0) = replicate n Missed)
    as Hmissed.
  { apply list_eq. intros j. rewrite Hcs1. simpl.
    destruct (decide (j ∈ checks)) as [Hj|Hj].
    - apply Hin1 in Hj. by rewrite lookup_replicate_2.
    - rewrite Hin1 in Hj.
      by rewrite !(lookup_ge_None_2 _ j) by (rewrite length_replicate; lia). }
  destruct (run_loads E set_code personality a lds
              (run E set_code personality checks p0) Hnd2 Hd) as [Hl Hcs2].
  { intros i Hi. apply Hin2 in Hi. rewrite Hmissed. by apply lookup_replicate_2. }
  rewrite run_app. split_and!; [done | |].
  - apply list_eq. intros j. rewrite Hcs2, Hmissed.
    destruct (decide (j ∈ lds)) as [Hj|Hj].
    + apply Hin2 in Hj. by rewrite lookup_replicate_2.
    + rewrite Hin2 in Hj.
      by rewrite !(lookup_ge_None_2 _ j) by (rewrite length_replicate; lia).
  - rewrite Hl, Hw1. simpl. by rewrite (Permutation_length Hlds), length_seq.
Qed.

Lemma every_miss_loads_witness :
  loads (world (run Examples.stocked "DTK" "gold" ([2; 0; 1] ++ [1; 2; 0])%list
                  {| world := Examples.fresh;
                     callers := replicate 3 Entering |}))
  = (loads Examples.fresh + 3)%nat.
Proof.
  eapply (proj1 (every_miss_loads Examples.stocked "DTK" "gold" Examples.fresh
                   Examples.wild 3 [2; 0; 1]%nat [1; 2; 0]%nat _ _ _ _)).
  Unshelve.
  - reflexivity.
  - reflexivity.
  - by apply (bool_decide_unpack _).
  - by apply (bool_decide_unpack _).
Defined.

(** * Further properties of the service *)

Import Sets.

(** ** Loading and the cache *)

Lemma cached_store_other (w : World) (set_code personality : string)
    (a : Artifact) (set_code' personality' : string) :
  (set_code', personality') ≠ (set_code, personality) →
  cached (store w set_code personality a) set_code' personality'
  = cached w set_code' personality'.
Proof.
  intros Hne. unfold cached, store. simpl.
  destruct (decide (set_code' = set_code)) as [->|Hs].
  - rewrite lookup_insert_eq. simpl.
    rewrite lookup_insert_ne by congruence.
    by destruct (loaded_models w !! set_code).
  - by rewrite lookup_insert_ne.
Qed.

(** X1: load_bot_model returns True exactly when the file of the key
    unpickles.  Then the key reads back the artifact of the file and every
    other key reads what it read before; otherwise no key changes. *)
Theorem load_bot_model_cache (E : Env) (set_code personality : string)
    (w : World) :
  let loaded := (load_bot_model E set_code personality w).1 in
  let w' := (load_bot_model E set_code personality w).2 in
  (∀ a, disk E (model_path set_code personality) = Pickled a →
        loaded = Ok true ∧ cached w' set_code personality = Some a ∧
        ∀ s p, (s, p) ≠ (set_code, personality) → cached w' s p = cached w s p) ∧
  ((∀ a, disk E (model_path set_code personality) ≠ Pickled a) →
   loaded = Ok false ∧ ∀ s p, cached w' s p = cached w s p).
Proof.
  unfold load_bot_model. split.
  - intros a ->. simpl. split_and!; [done | apply cached_store |].
    intros s p Hne. by apply cached_store_other.
  - intros Hd. destruct (disk E (model_path set_code personality)) as [| |a].
    + done.
    + done.
    + by destruct (Hd a).
Qed.

Lemma load_bot_model_cache_witness :
  cached (load_bot_model Examples.stocked "DTK" "gold" Examples.fresh).2
    "DTK" "gold" = Some Examples.wild ∧
  cached (load_bot_model Examples.stocked "DTK" "gold" Examples.fresh).2
    "DTK" "silver" = None.
Proof.
  destruct (proj1 (load_bot_model_cache Examples.stocked "DTK" "gold"
                     Examples.fresh) Examples.wild eq_refl)
    as (_ & Hkey & Hother).
  split; [exact Hkey |]. rewrite Hother; [reflexivity | discriminate].
Defined.

(** One run of the Fallback Evaluator with the world it leaves. *)
Lemma fallback_unfold (E : Env) (card : gmap string pyval)
    (personality : string) (w : World) :
  _fallback_evaluation E card personality w
  = match fallback_rules card personality with
    | Ok score =>
        (Ok (np_clip (score + random_uniform (-10) 10
                                (py_random E (py_cursor w))) 0 100),
         rolled w)
    | Raise e => (Raise e, w)
    end.
Proof.
  unfold _fallback_evaluation. rewrite run_lift_bind.
  by destruct (fallback_rules card personality).
Qed.

(** The path with a model leaves the world as it is, up to one normal draw,
    which is made whenever the path returns. *)
Lemma predict_with_model_world (E : Env) (a : Artifact)
    (card : gmap string pyval) (context : option (gmap string pyval))
    (w : World) :
  ((predict_with_model E a card context w).2 = w ∨
   (predict_with_model E a card context w).2 = drawn w) ∧
  (returns (predict_with_model E a card context w).1 →
   (predict_with_model E a card context w).2 = drawn w).
Proof.
  unfold predict_with_model, returns.
  rewrite run_lift_bind. destruct (keys a) as [[]|];
    [|split; [by left | by intros [? ?]]].
  rewrite run_lift_bind. destruct (extract_features E card);
    [|split; [by left | by intros [? ?]]].
  rewrite run_lift_bind. destruct (scaler a _);
    [|split; [by left | by intros [? ?]]].
  rewrite run_lift_bind. destruct (base_model a _) as [prediction|];
    [|split; [by left | by intros [? ?]]].
  rewrite run_lift_bind. destruct (first prediction) as [base|];
    [|split; [by left | by intros [? ?]]].
  rewrite run_bind, apply_personality_unfold.
  destruct (Qlt_le_dec _ _); [split; [by left | by intros [? ?]] |].
  destruct (commitment_bonus card (config a) context); simpl;
    (split; [by right | done]).
Qed.

Lemma predict_missing (E : Env) (card : gmap string pyval)
    (set_code personality : string) (context : option (gmap string pyval))
    (w : World) :
  cached w set_code personality = None →
  disk E (model_path set_code personality) = Missing →
  predict_pick_value E card set_code personality context w
  = _fallback_evaluation E card personality w.
Proof.
  intros Hc Hd. unfold predict_pick_value.
  rewrite run_bind. unfold is_cached at 1.
  rewrite Hc, bool_decide_false by (by intros [? ?]).
  rewrite run_bind. unfold load_bot_model at 1. by rewrite Hd.
Qed.

Lemma predict_unreadable (E : Env) (card : gmap string pyval)
    (set_code personality : string) (context : option (gmap string pyval))
    (w : World) :
  cached w set_code personality = None →
  disk E (model_path set_code personality) = Unreadable →
  predict_pick_value E card set_code personality context w
  = _fallback_evaluation E card personality (count_load w).
Proof.
  intros Hc Hd. unfold predict_pick_value.
  rewrite run_bind. unfold is_cached at 1.
  rewrite Hc, bool_decide_false by (by intros [? ?]).
  rewrite run_bind. unfold load_bot_model at 1. by rewrite Hd.
Qed.

(** A cached key is served without touching the disk or the cache. *)
Lemma predict_hit_world (E : Env) (card : gmap string pyval)
    (set_code personality : string) (context : option (gmap string pyval))
    (w : World) (a : Artifact) :
  cached w set_code personality = Some a →
  loads (predict_pick_value E card set_code personality context w).2 = loads w ∧
  loaded_models (predict_pick_value E card set_code personality context w).2
  = loaded_models w.
Proof.
  intros Hc. rewrite (predict_hit _ _ _ _ _ _ _ Hc).
  by destruct (proj1 (predict_with_model_world E a card context w)) as [-> | ->].
Qed.

(** X2: once a key is cached, predict never reads the models directory for
    it again, whatever the directory holds by then: no load is made and the
    cached artifact stays, so a file written later is not picked up. *)
Theorem predict_cached_never_reloads (E : Env) (card : gmap string pyval)
    (set_code personality : string) (context : option (gmap string pyval))
    (w : World) (a : Artifact) :
  cached w set_code personality = Some a →
  predict_pick_value E card set_code personality context w
  = predict_with_model E a card context w ∧
  loads (predict_pick_value E card set_code personality context w).2 = loads w ∧
  cached (predict_pick_value E card set_code personality context w).2
    set_code personality = Some a.
Proof.
  intros Hc. destruct (predict_hit_world E card set_code personality context w a Hc)
    as [Hl Hm].
  split_and!; [by apply predict_hit | done |].
  by rewrite (cached_models _ w).
Qed.

Lemma predict_cached_never_reloads_witness :
  let w := (load_bot_model Examples.stocked "DTK" "gold" Examples.fresh).2 in
  loads (predict_pick_value Examples.bare Examples.elf "DTK" "gold" None w).2
  = 1%nat ∧
  (predict_pick_value Examples.bare Examples.elf "DTK" "gold" None w).1
  = Ok 100%Q.
Proof.
  intros w.
  destruct (predict_cached_never_reloads Examples.bare Examples.elf "DTK" "gold"
              None w Examples.wild eq_refl) as (_ & Hl & _).
  split; [by rewrite Hl | reflexivity].
Defined.

Lemma predict_with_model_loads (E : Env) (a : Artifact)
    (card : gmap string pyval) (context : option (gmap string pyval))
    (w : World) :
  loads (predict_with_model E a card context w).2 = loads w.
Proof.
  by destruct (proj1 (predict_with_model_world E a card context w)) as [-> | ->].
Qed.

(** The world a prediction that returns leaves behind. *)
Lemma predict_ok_world (E : Env) (card : gmap string pyval)
    (set_code personality : string) (context : option (gmap string pyval))
    (w w' : World) (v : Q) :
  predict_pick_value E card set_code personality context w = (Ok v, w') →
  match cached w set_code personality with
  | Some a => w' = drawn w
  | None =>
      match disk E (model_path set_code personality) with
      | Pickled a => w' = drawn (store w set_code personality a)
      | Unreadable => w' = rolled (count_load w)
      | Missing => w' = rolled w
      end
  end.
Proof.
  intros H. destruct (cached w set_code personality) as [a|] eqn:Hc.
  - rewrite (predict_hit _ _ _ _ _ _ _ Hc) in H.
    destruct (predict_with_model_world E a card context w) as [_ Hw].
    rewrite H in Hw. apply Hw. by exists v.
  - destruct (disk E (model_path set_code personality)) as [| |a] eqn:Hd.
    + rewrite (predict_missing _ _ _ _ _ _ Hc Hd), fallback_unfold in H.
      destruct (fallback_rules card personality); by simplify_eq.
    + rewrite (predict_unreadable _ _ _ _ _ _ Hc Hd), fallback_unfold in H.
      destruct (fallback_rules card personality); by simplify_eq.
    + rewrite (predict_load _ _ _ _ _ _ _ Hc Hd) in H.
      destruct (predict_with_model_world E a card context
                  (store w set_code personality a)) as [_ Hw].
      rewrite H in Hw. apply Hw. by exists v.
Qed.

Lemma predict_draws_cases (E : Env) (card : gmap string pyval)
    (set_code personality : string) (context : option (gmap string pyval))
    (w w' : World) (v : Q) :
  predict_pick_value E card set_code personality context w = (Ok v, w') →
  (∀ a, found E w set_code personality a →
        np_cursor w' = S (np_cursor w) ∧ py_cursor w' = py_cursor w) ∧
  ((∀ a, ¬ found E w set_code personality a) →
   py_cursor w' = S (py_cursor w) ∧ np_cursor w' = np_cursor w).
Proof.
  intros H. apply predict_ok_world in H. unfold found. split.
  - intros a [Hc | [Hc Hd]]; rewrite Hc in H; [|rewrite Hd in H]; by subst.
  - intros Hnone. destruct (cached w set_code personality) as [a|] eqn:Hc.
    { destruct (Hnone a). by left. }
    destruct (disk E (model_path set_code personality)) as [| |a] eqn:Hd;
      [by subst | by subst |].
    destruct (Hnone a). by right.
Qed.

(** X3: a prediction that returns has made exactly one draw: a normal draw
    of numpy when an artifact was found for the key, cached or on disk, and
    a draw of [random] when the Fallback Evaluator answered; the other
    generator is not touched. *)
Theorem predict_draws_once (E : Env) (card : gmap string pyval)
    (set_code personality : string) (context : option (gmap string pyval))
    (w w' : World) (v : Q) :
  predict_pick_value E card set_code personality context w = (Ok v, w') →
  (∀ a, found E w set_code personality a →
        np_cursor w' = S (np_cursor w) ∧ py_cursor w' = py_cursor w) ∧
  ((∀ a, ¬ found E w set_code personality a) →
   py_cursor w' = S (py_cursor w) ∧ np_cursor w' = np_cursor w).
Proof. apply predict_draws_cases. Qed.

Lemma predict_draws_once_witness :
  py_cursor (predict_pick_value Examples.bare Examples.bolt "DTK" "gold" None
               Examples.fresh).2 = 1%nat ∧
  np_cursor (predict_pick_value Examples.stocked Examples.bolt "DTK" "gold" None
               Examples.fresh).2 = 1%nat.
Proof.
  split.
  - eapply (proj2 (predict_draws_once Examples.bare Examples.bolt "DTK" "gold"
                     None Examples.fresh _ _ ltac:(vm_compute; reflexivity))).
    intros a [H | [_ H]]; discriminate H.
  - eapply (proj1 (predict_draws_once Examples.stocked Examples.bolt "DTK" "gold"
                     None Examples.fresh _ _ ltac:(vm_compute; reflexivity))
              Examples.wild).
    right. split; reflexivity.
Defined.

Lemma found_dec (E : Env) (w : World) (set_code personality : string) :
  (∃ a, found E w set_code personality a) ∨
  (∀ a, ¬ found E w set_code personality a).
Proof.
  unfold found. destruct (cached w set_code personality) as [a|].
  - left. exists a. by left.
  - destruct (disk E (model_path set_code personality)) as [| |a].
    + right. intros a [H|[_ H]]; discriminate H.
    + right. intros a [H|[_ H]]; discriminate H.
    + left. exists a. by right.
Qed.

(** After a prediction that returns, an artifact is found for the key
    exactly when one was found before. *)
Lemma predict_ok_found (E : Env) (card : gmap string pyval)
    (set_code personality : string) (context : option (gmap string pyval))
    (w w' : World) (v : Q) :
  predict_pick_value E card set_code personality context w = (Ok v, w') →
  ((∃ a, found E w set_code personality a) →
   ∃ a, found E w' set_code personality a) ∧
  ((∀ a, ¬ found E w set_code personality a) →
   ∀ a, ¬ found E w' set_code personality a).
Proof.
  intros H. apply predict_ok_world in H. unfold found.
  destruct (cached w set_code personality) as [a|] eqn:Hc.
  - subst w'. split.
    + intros _. exists a. left. by rewrite (cached_models _ w).
    + intros Hnone. destruct (Hnone a). by left.
  - destruct (disk E (model_path set_code personality)) as [| |a] eqn:Hd;
      subst w'.
    + split; [intros [a [H|[_ H]]]; discriminate H |].
      intros _ a. rewrite (cached_models _ w), Hc by done.
      intros [H|[_ H]]; discriminate H.
    + split; [intros [a [H|[_ H]]]; discriminate H |].
      intros _ a. rewrite (cached_models _ w), Hc by done.
      intros [H|[_ H]]; discriminate H.
    + split.
      * intros _. exists a. left.
        rewrite (cached_models _ (store w set_code personality a)) by done.
        apply cached_store.
      * intros Hnone. destruct (Hnone a). by right.
Qed.

Lemma rank_from_one_path (E : Env) (cards : list (gmap string pyval))
    (set_code personality : string) (context : option (gmap string pyval)) :
  ∀ (i : nat) (w w' : World) (scored : list (nat * Q)),
    rank_from E i cards set_code personality context w = (Ok scored, w') →
    ((∃ a, found E w set_code personality a) →
     np_cursor w' = (np_cursor w + length cards)%nat ∧
     py_cursor w' = py_cursor w) ∧
    ((∀ a, ¬ found E w set_code personality a) →
     py_cursor w' = (py_cursor w + length cards)%nat ∧
     np_cursor w' = np_cursor w).
Proof.
  induction cards as [|card cards IH]; intros i w w' scored H; simpl in H.
  - injection H as _ <-. split; intros _; simpl; lia.
  - apply bind_run_ok in H as (score & w1 & Hscore & H).
    apply bind_run_ok in H as (rest & w2 & Hrest & H).
    injection H as _ <-.
    destruct (predict_ok_found _ _ _ _ _ _ _ _ Hscore) as [Hyes Hno].
    destruct (predict_draws_cases _ _ _ _ _ _ _ _ Hscore) as [Hnp Hpy].
    destruct (IH _ _ _ _ Hrest) as [IHyes IHno].
    split.
    + intros [a Ha]. destruct (Hnp a Ha) as [H1 H2].
      destruct (IHyes (Hyes (ex_intro _ a Ha))) as [H3 H4].
      simpl. lia.
    + intros Hnone. destruct (Hpy Hnone) as [H1 H2].
      destruct (IHno (Hno Hnone)) as [H3 H4].
      simpl. lia.
Qed.

(** X4: a ranking never mixes the two ways of scoring.  When it returns,
    either an artifact was found for the key and every candidate was scored
    by the model, with one normal draw each and no draw of [random], or none
    was found and every candidate was scored by the Fallback Evaluator,
    with one draw of [random] each and no normal draw. *)
Theorem rankings_one_path (E : Env) (cards : list (gmap string pyval))
    (set_code personality : string) (context : option (gmap string pyval))
    (w w' : World) (rankings : list (nat * Q)) :
  get_pick_rankings E cards set_code personality context w = (Ok rankings, w') →
  ((∃ a, found E w set_code personality a) ∧
   np_cursor w' = (np_cursor w + length cards)%nat ∧
   py_cursor w' = py_cursor w) ∨
  ((∀ a, ¬ found E w set_code personality a) ∧
   py_cursor w' = (py_cursor w + length cards)%nat ∧
   np_cursor w' = np_cursor w).
Proof.
  unfold get_pick_rankings. intros H.
  apply bind_run_ok in H as (scored & w1 & Hscored & H).
  injection H as _ <-.
  destruct (rank_from_one_path _ _ _ _ _ _ _ _ _ Hscored) as [Hyes Hno].
  destruct (found_dec E w set_code personality) as [Hf|Hf]; [left | right].
  - split; [done | by apply Hyes].
  - split; [done | by apply Hno].
Qed.

Lemma rankings_one_path_witness :
  let w' := (get_pick_rankings Examples.stocked
               [Examples.bolt; Examples.elf; Examples.bolt] "DTK" "gold" None
               Examples.fresh).2 in
  np_cursor w' = 3%nat ∧ py_cursor w' = 0%nat.
Proof.
  intros w'.
  destruct (rankings_one_path Examples.stocked
              [Examples.bolt; Examples.elf; Examples.bolt] "DTK" "gold" None
              Examples.fresh w'
              (sort_by_reverse snd
                 [(0%nat, 100%Q); (1%nat, 100%Q); (2%nat, 100%Q)]))
    as [(_ & Hnp & Hpy) | (Hnone & _)].
  - vm_compute. reflexivity.
  - by rewrite Hnp, Hpy.
  - destruct (Hnone Examples.wild). right. split; reflexivity.
Defined.

(** ** How often the models directory is read *)

Lemma rank_from_unreadable (E : Env) (cards : list (gmap string pyval))
    (set_code personality : string) (context : option (gmap string pyval)) :
  disk E (model_path set_code personality) = Unreadable →
  (∀ card, card ∈ cards → readable card) →
  ∀ (i : nat) (w : World),
    cached w set_code personality = None →
    ∃ scored w',
      rank_from E i cards set_code personality context w = (Ok scored, w') ∧
      loads w' = (loads w + length cards)%nat ∧
      loaded_models w' = loaded_models w.
Proof.
  intros Hd. induction cards as [|card cards IH]; intros Hcards i w Hc; simpl.
  - eexists _, _. split_and!; [done | simpl; lia | done].
  - assert (readable card) as Hread by (apply Hcards; left).
    apply (fallback_rules_returns card personality) in Hread as [s Hs].
    rewrite run_bind, (predict_unreadable _ _ _ _ _ _ Hc Hd), fallback_unfold, Hs.
    destruct (IH (λ c Hin, Hcards c (list_elem_of_further _ _ _ Hin)) (S i)
                (rolled (count_load w))) as (scored & w' & Hrest & Hl & Hm).
    { by rewrite (cached_models _ w). }
    rewrite run_bind, Hrest. eexists _, _. split_and!; [done | |done].
    rewrite Hl. simpl. lia.
Qed.

(** X5: a failed load is not remembered.  While the file of the key exists
    but does not unpickle, every prediction tries to load it again: ranking
    n readable candidates reads the file n times, scores all of them by the
    Fallback Evaluator and leaves the cache as it was. *)
Theorem rankings_retry_unreadable (E : Env) (cards : list (gmap string pyval))
    (set_code personality : string) (context : option (gmap string pyval))
    (w : World) :
  cached w set_code personality = None →
  disk E (model_path set_code personality) = Unreadable →
  (∀ card, card ∈ cards → readable card) →
  ∃ rankings w',
    get_pick_rankings E cards set_code personality context w = (Ok rankings, w') ∧
    loads w' = (loads w + length cards)%nat ∧
    loaded_models w' = loaded_models w.
Proof.
  intros Hc Hd Hcards.
  destruct (rank_from_unreadable E cards set_code personality context Hd Hcards
              0 w Hc) as (scored & w' & Hscored & Hl & Hm).
  unfold get_pick_rankings. rewrite run_bind, Hscored. by eexists _, _.
Qed.

Lemma rank_from_cached (E : Env) (cards : list (gmap string pyval))
    (set_code personality : string) (context : option (gmap string pyval))
    (a : Artifact) :
  ∀ (i : nat) (w : World),
    cached w set_code personality = Some a →
    loads (rank_from E i cards set_code personality context w).2 = loads w ∧
    loaded_models (rank_from E i cards set_code personality context w).2
    = loaded_models w.
Proof.
  induction cards as [|card cards IH]; intros i w Hc; simpl; [done |].
  rewrite run_bind.
  destruct (predict_hit_world E card set_code personality context w a Hc)
    as [Hl Hm].
  destruct (predict_pick_value E card set_code personality context w)
    as [[score|e] w1]; simpl in *; [|done].
  rewrite run_bind.
  destruct (IH (S i) w1) as [Hl' Hm']; [by rewrite (cached_models _ w) |].
  destruct (rank_from E (S i) cards set_code personality context w1)
    as [[rest|e] w2]; simpl in *; split; congruence.
Qed.

(** X6: when the file of a key that is not cached unpickles, a ranking of
    one or more candidates that returns has read it exactly once, for the
    first candidate, and leaves its artifact cached. *)
Theorem rankings_load_once (E : Env) (cards : list (gmap string pyval))
    (set_code personality : string) (context : option (gmap string pyval))
    (w w' : World) (a : Artifact) (rankings : list (nat * Q)) :
  cached w set_code personality = None →
  disk E (model_path set_code personality) = Pickled a →
  cards ≠ [] →
  get_pick_rankings E cards set_code personality context w = (Ok rankings, w') →
  loads w' = S (loads w) ∧ cached w' set_code personality = Some a.
Proof.
  intros Hc Hd Hne H. unfold get_pick_rankings in H.
  apply bind_run_ok in H as (scored & w2 & Hscored & H).
  injection H as _ <-.
  destruct cards as [|card cards]; [done |]. simpl in Hscored.
  apply bind_run_ok in Hscored as (score & w1 & Hscore & Hrest).
  apply bind_run_ok in Hrest as (rest & w3 & Hrest & H).
  injection H as _ <-.
  apply predict_ok_world in Hscore. rewrite Hc, Hd in Hscore. subst w1.
  assert (cached (drawn (store w set_code personality a)) set_code personality
          = Some a) as Hc1.
  { rewrite (cached_models _ (store w set_code personality a)) by done.
    apply cached_store. }
  destruct (rank_from_cached E cards set_code personality context a 1 _ Hc1)
    as [Hl Hm].
  rewrite Hrest in Hl, Hm. split; [done |].
  by rewrite (cached_models w3 (drawn (store w set_code personality a))).
Qed.

Lemma rankings_retry_unreadable_witness :
  ∃ rankings w',
    get_pick_rankings
      (Training.with_disk Examples.bare (λ _, Unreadable))
      [Examples.bolt; Examples.elf] "DTK" "gold" None Examples.fresh
    = (Ok rankings, w') ∧
    loads w' = (loads Examples.fresh + 2)%nat ∧
    loaded_models w' = loaded_models Examples.fresh.
Proof.
  apply (rankings_retry_unreadable
           (Training.with_disk Examples.bare (λ _, Unreadable))
           [Examples.bolt; Examples.elf] "DTK" "gold" None Examples.fresh).
  - reflexivity.
  - reflexivity.
  - intros card Hcard.
    apply elem_of_cons in Hcard as [->|Hcard];
      [|apply list_elem_of_singleton in Hcard as ->];
      repeat split; eexists; reflexivity.
Defined.

Lemma rankings_load_once_witness :
  loads (get_pick_rankings Examples.stocked
           [Examples.bolt; Examples.elf; Examples.bolt] "DTK" "gold" None
           Examples.fresh).2 = 1%nat.
Proof.
  eapply (rankings_load_once Examples.stocked
            [Examples.bolt; Examples.elf; Examples.bolt] "DTK" "gold" None
            Examples.fresh _ Examples.wild
            (sort_by_reverse snd [(0%nat, 100%Q); (1%nat, 100%Q); (2%nat, 100%Q)])).
  - reflexivity.
  - reflexivity.
  - discriminate.
  - vm_compute. reflexivity.
Defined.

Lemma model_path_lower (set_code set_code' personality : string) :
  lower set_code = lower set_code' →
  model_path set_code personality = model_path set_code' personality.
Proof. unfold model_path. by intros ->. Qed.

(** X7: the file of a key is looked up under the lower-cased set code, the
    cache under the set code as written.  Two spellings of one set code
    share the file and not the cache entry: predicting for one and then for
    the other reads the file twice and caches the artifact under both. *)
Theorem cache_key_keeps_case (E : Env) (card card' : gmap string pyval)
    (set_code set_code' personality : string)
    (context context' : option (gmap string pyval)) (w : World) (a : Artifact) :
  set_code ≠ set_code' → lower set_code = lower set_code' →
  cached w set_code personality = None →
  cached w set_code' personality = None →
  disk E (model_path set_code personality) = Pickled a →
  let w1 := (predict_pick_value E card set_code personality context w).2 in
  let w2 := (predict_pick_value E card' set_code' personality context' w1).2 in
  loads w1 = S (loads w) ∧ loads w2 = S (S (loads w)) ∧
  cached w2 set_code personality = Some a ∧
  cached w2 set_code' personality = Some a.
Proof.
  intros Hne Hlow Hc Hc' Hd w1 w2.
  assert (disk E (model_path set_code' personality) = Pickled a) as Hd'
    by (by rewrite <- (model_path_lower set_code set_code')).
  assert (loads w1 = S (loads w) ∧
          loaded_models w1 = loaded_models (store w set_code personality a))
    as [Hl1 Hm1].
  { unfold w1. rewrite (predict_load _ _ _ _ _ _ _ Hc Hd).
    by rewrite predict_with_model_loads, predict_with_model_models. }
  assert (cached w1 set_code' personality = None) as Hc1.
  { rewrite (cached_models _ _ _ _ Hm1), cached_store_other by congruence.
    done. }
  assert (loads w2 = S (S (loads w)) ∧
          loaded_models w2 = loaded_models (store w1 set_code' personality a))
    as [Hl2 Hm2].
  { unfold w2. rewrite (predict_load _ _ _ _ _ _ _ Hc1 Hd').
    rewrite predict_with_model_loads, predict_with_model_models. simpl.
    by rewrite Hl1. }
  split_and!; try done.
  - rewrite (cached_models _ _ _ _ Hm2), cached_store_other by congruence.
    rewrite (cached_models _ _ _ _ Hm1). apply cached_store.
  - rewrite (cached_models _ _ _ _ Hm2). apply cached_store.
Qed.

Lemma cache_key_keeps_case_witness :
  loads (predict_pick_value Examples.stocked Examples.elf "dtk" "gold" None
           (predict_pick_value Examples.stocked Examples.bolt "DTK" "gold" None
              Examples.fresh).2).2 = 2%nat.
Proof.
  apply (cache_key_keeps_case Examples.stocked Examples.bolt Examples.elf
           "DTK" "dtk" "gold" None None Examples.fresh Examples.wild);
    (reflexivity || discriminate).
Defined.

(** ** What choose returns *)

Lemma rankings_indices (E : Env) (cards : list (gmap string pyval))
    (set_code personality : string) (context : option (gmap string pyval))
    (w w' : World) (rankings : list (nat * Q)) :
  get_pick_rankings E cards set_code personality context w = (Ok rankings, w') →
  rankings.*1 ≡ₚ seq 0 (length cards) ∧ StronglySorted ranked_before rankings.
Proof.
  unfold get_pick_rankings. intros H.
  apply bind_run_ok in H as (scored & w1 & Hscored & H).
  injection H as <- _.
  destruct (rank_from_scored E cards set_code personality context 0 w w1
              scored Hscored) as [Hidx _].
  split.
  - by rewrite sort_by_reverse_perm, Hidx.
  - apply sort_by_reverse_ranked. by eapply indices_ascending.
Qed.

Lemma choose_pick_select (E : Env) (cards : list (gmap string pyval))
    (set_code personality : string) (context : option (gmap string pyval))
    (w w1 : World) (rankings : list (nat * Q)) :
  cards ≠ [] →
  get_pick_rankings E cards set_code personality context w = (Ok rankings, w1) →
  rankings ≠ [] ∧ length rankings = length cards ∧
  choose_pick E cards set_code personality context w
  = select E rankings personality w1.
Proof.
  intros Hcards Hrank.
  assert (length rankings = length cards) as Hlen.
  { apply rankings_indices in Hrank as [Hidx _].
    by rewrite <- (length_fmap fst), Hidx, length_seq. }
  assert (rankings ≠ []) as Hne.
  { intros ->. destruct cards; [done | discriminate Hlen]. }
  split_and!; try done.
  unfold choose_pick. rewrite run_bind, Hrank. by destruct rankings.
Qed.

(** X8: for every personality, when the candidates are not empty and the
    ranking returns, choose returns an index of the candidate list, and it is
    the index of one of the three best-ranked candidates (of all of them when
    there are fewer). *)
Theorem choose_pick_in_range (E : Env) (cards : list (gmap string pyval))
    (set_code personality : string) (context : option (gmap string pyval))
    (w w1 : World) (rankings : list (nat * Q)) :
  cards ≠ [] →
  get_pick_rankings E cards set_code personality context w = (Ok rankings, w1) →
  (0 <= py_random E (S (py_cursor w1)) < 1)%Q →
  ∃ i k s,
    (choose_pick E cards set_code personality context w).1 = Ok i ∧
    (i < length cards)%nat ∧
    (k < Nat.min 3 (length cards))%nat ∧ rankings !! k = Some (i, s).
Proof.
  intros Hcards Hrank Hr'.
  destruct (choose_pick_select E cards set_code personality context w w1
              rankings Hcards Hrank) as (Hne & Hlen & ->).
  assert (∀ k e, rankings !! k = Some e → (e.1 < length cards)%nat) as Hin.
  { intros k e He. apply rankings_indices in Hrank as [Hidx _].
    assert (e.1 ∈ rankings.*1) as Hi.
    { apply list_elem_of_fmap_2. by eapply list_elem_of_lookup_2. }
    rewrite Hidx in Hi. apply elem_of_seq in Hi. lia. }
  destruct (select_run E rankings personality w1 Hne) as [Htop Hrest].
  rewrite Hlen in Hrest.
  destruct (Qlt_le_dec (py_random E (py_cursor w1))
              (skill_level (default silver (BOT_PERSONALITIES !! personality))))
    as [Hlt|Hle].
  - destruct (Htop Hlt) as ([i s] & He & Hsel).
    exists i, 0%nat, s. split_and!; [done | by apply (Hin _ _ He) | | done].
    destruct cards; [done | simpl; lia].
  - destruct (Hrest Hle Hr') as (k & [i s] & Hk & He & Hsel & _).
    exists i, k, s. split_and!; [done | by apply (Hin _ _ He) | done | done].
Qed.

Lemma choose_pick_in_range_witness :
  ∃ i, (choose_pick Examples.bare [Examples.bolt; Examples.elf] "DTK" "mythic"
          None Examples.fresh).1 = Ok i ∧ (i < 2)%nat.
Proof.
  destruct (choose_pick_in_range Examples.bare [Examples.bolt; Examples.elf]
              "DTK" "mythic" None Examples.fresh _ _
              ltac:(discriminate) ltac:(vm_compute; reflexivity))
    as (i & k & s & Hi & Hlt & _).
  - vm_compute. split; [discriminate | reflexivity].
  - by exists i.
Defined.

(** The first entry of a ranking has the highest score. *)
Lemma ranked_top_best (top : nat * Q) (rest : list (nat * Q)) :
  StronglySorted ranked_before (top :: rest) →
  ∀ e, e ∈ top :: rest → (e.2 <= top.2)%Q.
Proof.
  intros Hs e He. apply StronglySorted_cons in Hs as [Hall _].
  apply elem_of_cons in He as [->|He]; [lra |].
  rewrite Forall_forall in Hall. destruct (Hall e He) as [H|[H _]]; lra.
Qed.

(** X9: for every personality, when the draw of random() is below the skill
    of its profile (the silver one for an unknown personality), choose
    returns the index of the first entry of the ranking, and no entry of the
    ranking has a higher score than that one. *)
Theorem choose_pick_skilled_takes_best (E : Env)
    (cards : list (gmap string pyval)) (set_code personality : string)
    (context : option (gmap string pyval)) (w w1 : World)
    (rankings : list (nat * Q)) :
  cards ≠ [] →
  get_pick_rankings E cards set_code personality context w = (Ok rankings, w1) →
  (py_random E (py_cursor w1)
   < skill_level (default silver (BOT_PERSONALITIES !! personality)))%Q →
  ∃ i s,
    (choose_pick E cards set_code personality context w).1 = Ok i ∧
    rankings !! 0%nat = Some (i, s) ∧ ∀ e, e ∈ rankings → (e.2 <= s)%Q.
Proof.
  intros Hcards Hrank Hr.
  destruct (choose_pick_select E cards set_code personality context w w1
              rankings Hcards Hrank) as (Hne & Hlen & ->).
  destruct (proj1 (select_run E rankings personality w1 Hne) Hr)
    as ([i s] & He & Hsel).
  exists i, s. split; [done |].
  destruct rankings as [|top rest]; [done |]. injection He as ->.
  split; [done |].
  apply rankings_indices in Hrank as [_ Hsorted].
  by apply (ranked_top_best (i, s) rest).
Qed.

Lemma choose_pick_skilled_takes_best_witness :
  (choose_pick Examples.bare [Examples.bolt; Examples.elf] "DTK" "mythic"
     None Examples.fresh).1 = Ok 1%nat.
Proof.
  destruct (choose_pick_skilled_takes_best Examples.bare
              [Examples.bolt; Examples.elf] "DTK" "mythic" None Examples.fresh
              _ _ ltac:(discriminate) ltac:(vm_compute; reflexivity))
    as (i & s & Hi & _).
  - vm_compute. reflexivity.
  - rewrite Hi. vm_compute in Hi. by injection Hi as <-.
Defined.

(** ** Edges of the Personality Adjuster *)

(** X10: a profile with negative randomness disables the model path.  When
    the artifact found for the key has one, numpy refuses the scale of the
    noise, so predict never returns a score for that key, and it does not fall
    back to the rules either. *)
Theorem negative_randomness_never_predicts (E : Env)
    (card : gmap string pyval) (set_code personality : string)
    (context : option (gmap string pyval)) (w : World) (a : Artifact) :
  found E w set_code personality a →
  (randomness (config a) < 0)%Q →
  ∀ v w', predict_pick_value E card set_code personality context w ≠ (Ok v, w').
Proof.
  intros Hfound Hneg v w' H.
  assert (∃ w0, predict_with_model E a card context w0 = (Ok v, w')) as [w0 Hm].
  { destruct Hfound as [Hc | [Hc Hd]].
    - exists w. by rewrite <- (predict_hit _ _ _ _ _ _ _ Hc).
    - eexists. by rewrite <- (predict_load _ _ _ _ _ _ _ Hc Hd). }
  unfold predict_with_model in Hm.
  apply bind_run_ok in Hm as (? & ? & _ & Hm).
  apply bind_run_ok in Hm as (? & ? & _ & Hm).
  apply bind_run_ok in Hm as (? & ? & _ & Hm).
  apply bind_run_ok in Hm as (? & ? & _ & Hm).
  apply bind_run_ok in Hm as (? & ? & _ & Hm).
  apply bind_run_ok in Hm as (? & ? & Hadj & _).
  rewrite apply_personality_unfold in Hadj.
  destruct (Qlt_le_dec (randomness (config a) * 20) 0); [discriminate Hadj | lra].
Qed.

Lemma negative_randomness_never_predicts_witness :
  let off :=
    {| keys := Ok tt;
       base_model := base_model Examples.wild; scaler := scaler Examples.wild;
       config := {| name := "Off"; skill_level := 1; randomness := -1;
                    rare_bias := 1; color_commitment := 1 |};
       feature_order := FEATURE_ORDER |} in
  let w := store Examples.fresh "DTK" "off" off in
  (predict_pick_value Examples.bare Examples.bolt "DTK" "off" None w).1
  = Raise ValueError.
Proof.
  intros off w.
  pose proof (negative_randomness_never_predicts Examples.bare Examples.bolt
                "DTK" "off" None w off (or_introl eq_refl) eq_refl) as H.
  destruct (predict_pick_value Examples.bare Examples.bolt "DTK" "off" None w)
    as [[v|e] w'] eqn:Hp.
  - by destruct (H v w').
  - vm_compute in Hp. by injection Hp as <- _.
Defined.

(** X11: without rarity bias, noise and committed colors, the adjusted score
    lies between the base score and 100: the skill regression moves the
    score toward 100 by three tenths of the distance at skill 0, by nothing
    at skill 1, and never beyond 100. *)
Theorem skill_regression_between (E : Env) (base_score : Q)
    (card : gmap string pyval) (config : Config) (w : World) :
  (0 <= skill_level config <= 1)%Q → (randomness config == 0)%Q →
  favoured card = false →
  ∃ v, (_apply_personality E base_score card config None w).1 = Ok v ∧
    (Qmin base_score 100 <= v <= Qmax base_score 100)%Q ∧
    (skill_level config == 1 → v == base_score)%Q ∧
    (skill_level config == 0 → v == base_score + 0.3 * (100 - base_score))%Q.
Proof.
  intros Hskill Hrand Hfav.
  rewrite apply_personality_unfold, rare_or_mythic_favoured, Hfav.
  destruct (Qlt_le_dec (randomness config * 20) 0) as [Hneg|_]; [lra |].
  eexists. split; [reflexivity |].
  set (z := np_normal E (np_cursor w)).
  assert (randomness config * 20 * z == 0)%Q as Hnoise
    by (rewrite Hrand; ring).
  set (noise := (randomness config * 20 * z)%Q) in *.
  set (s := skill_level config) in *.
  split_and!.
  - destruct (Q.min_spec base_score 100) as [[Hlt ->]|[Hle ->]].
    + assert (0 <= (100 - base_score) * (1 - s))%Q
        by (apply Qmult_le_0_compat; lra). lra.
    + assert (0 <= (base_score - 100) * s)%Q
        by (apply Qmult_le_0_compat; lra). lra.
  - destruct (Q.max_spec base_score 100) as [[Hlt ->]|[Hle ->]].
    + assert (0 <= (100 - base_score) * s)%Q
        by (apply Qmult_le_0_compat; lra). lra.
    + assert (0 <= (base_score - 100) * (1 - s))%Q
        by (apply Qmult_le_0_compat; lra). lra.
  - intros Hs. rewrite Hs. lra.
  - intros Hs. rewrite Hs. lra.
Qed.

Lemma skill_regression_between_witness :
  ∃ v, (_apply_personality Examples.bare 50 Examples.bolt
          {| name := "Even"; skill_level := 0.5; randomness := 0;
             rare_bias := 2; color_commitment := 1 |} None Examples.fresh).1
       = Ok v ∧ (50 <= v <= 100)%Q.
Proof.
  destruct (skill_regression_between Examples.bare 50 Examples.bolt
              {| name := "Even"; skill_level := 0.5; randomness := 0;
                 rare_bias := 2; color_commitment := 1 |} Examples.fresh)
    as (v & Hv & Hrange & _).
  - vm_compute. split; discriminate.
  - reflexivity.
  - reflexivity.
  - exists v. split; [exact Hv | exact Hrange].
Defined.

(** ** The color commitment bonus *)

Lemma key_eqb_sym (a b : pyval) : key_eqb a b = true → key_eqb b a = true.
Proof.
  destruct a, b; unfold key_eqb; simpl; try done;
    rewrite ?Qeq_bool_iff, ?String.eqb_eq; intros H; by symmetry.
Qed.

Lemma key_eqb_trans (a b c : pyval) :
  key_eqb a b = true → key_eqb b c = true → key_eqb a c = true.
Proof.
  destruct a, b; unfold key_eqb; simpl; try done; destruct c; simpl; try done;
    rewrite ?Qeq_bool_iff, ?String.eqb_eq; intros H1 H2;
    by (etransitivity; [exact H1 | exact H2]).
Qed.

(** Among distinct entries at most one equals a given value. *)
Lemma distinct_one_match (x : pyval) (l : list pyval) :
  distinct l = true →
  (length (List.filter (λ c, key_eqb c x) l) <= 1)%nat.
Proof.
  induction l as [|y l IH]; simpl; [lia |].
  intros [Hy Hl]%andb_true_iff. apply negb_true_iff in Hy.
  specialize (IH Hl).
  destruct (key_eqb y x) eqn:Hyx; [|done]. simpl.
  assert (List.filter (λ c, key_eqb c x) l = []) as ->; [|simpl; lia].
  clear IH Hl. induction l as [|c l IHl]; simpl; [done |].
  simpl in Hy. apply orb_false_iff in Hy as [Hyc Hy].
  destruct (key_eqb c x) eqn:Hcx; [|by apply IHl].
  rewrite (key_eqb_trans y x c Hyx (key_eqb_sym _ _ Hcx)) in Hyc. done.
Qed.

(** Distinct committed colors cannot match more colors than the item has. *)
Lemma overlap_length (committed colors : list pyval) :
  distinct committed = true →
  (length (overlap committed colors) <= length colors)%nat.
Proof.
  intros Hd. unfold overlap. induction colors as [|x colors IH]; simpl.
  - clear Hd. induction committed as [|c l IHl]; simpl; [lia | done].
  - pose proof (distinct_one_match x committed Hd) as Hone.
    assert (∀ l : list pyval,
              length (List.filter (λ c, key_eqb c x || mem c colors) l)
              <= length (List.filter (λ c, key_eqb c x) l)
                 + length (List.filter (λ c, mem c colors) l))%nat as Hsplit.
    { induction l as [|c l IHl]; simpl; [lia |].
      destruct (key_eqb c x), (mem c colors); simpl; lia. }
    specialize (Hsplit committed). unfold mem in *. simpl in *. lia.
Qed.

(** X12: the color commitment bonus is never negative and never more than
    ten times the color commitment of the profile, whatever colors the item
    has and whatever distinct colors the draft context holds. *)
Theorem commitment_bonus_bounded (card : gmap string pyval) (config : Config)
    (ctx : gmap string pyval) (picked : list pyval) :
  colored card →
  ctx !! "picked_colors" = Some (VSet picked) → distinct picked = true →
  (0 <= color_commitment config)%Q →
  ∃ bonus, commitment_bonus card config (Some ctx) = Ok bonus ∧
    (0 <= bonus <= 10 * color_commitment config)%Q.
Proof.
  intros Hcard Hctx Hd Hcc.
  rewrite commitment_bonus_typed; [|done | by (simpl; rewrite Hctx)].
  eexists. split; [reflexivity |].
  unfold committed. rewrite Hctx. unfold color_affinity.
  destruct picked as [|p picked]; [lra |].
  destruct (item_colors card) as [|c colors] eqn:Hcolors; [lra |].
  pose proof (overlap_length (p :: picked) (c :: colors) Hd) as Hle.
  set (n := length (overlap (p :: picked) (c :: colors))) in *.
  set (m := length (c :: colors)) in *.
  assert (0 < m)%nat as Hm by (unfold m; simpl; lia).
  assert (0 < inject_Z (Z.of_nat m))%Q as Hmq.
  { change 0%Q with (inject_Z 0). rewrite <- Zlt_Qlt. lia. }
  assert (0 <= inject_Z (Z.of_nat n) / inject_Z (Z.of_nat m) <= 1)%Q as [H0 H1].
  { split.
    - apply Qle_shift_div_l; [done |]. rewrite Qmult_0_l.
      change 0%Q with (inject_Z 0). rewrite <- Zle_Qle. lia.
    - apply Qle_shift_div_r; [done |]. rewrite Qmult_1_l.
      rewrite <- Zle_Qle. lia. }
  set (f := (inject_Z (Z.of_nat n) / inject_Z (Z.of_nat m))%Q) in *.
  assert (0 <= f * color_commitment config)%Q
    by (apply Qmult_le_0_compat; lra).
  assert (0 <= (1 - f) * color_commitment config)%Q
    by (apply Qmult_le_0_compat; lra).
  lra.
Qed.

Lemma commitment_bonus_bounded_witness :
  ∃ bonus, commitment_bonus Examples.elf bronze Examples.green = Ok bonus ∧
    (0 <= bonus <= 10 * 0.5)%Q.
Proof.
  apply (commitment_bonus_bounded Examples.elf bronze
           {[ "picked_colors" := VSet [VStr "G"] ]} [VStr "G"]).
  - reflexivity.
  - reflexivity.
  - reflexivity.
  - vm_compute. discriminate.
Defined.

(** ** Bounds of the Fallback Evaluator *)

Lemma rarity_base_floor (rarity : pyval) : (40 <= rarity_base rarity <= 85)%Z.
Proof.
  destruct rarity as [| | | |s| | |]; simpl; try lia.
  by repeat destruct (String.eqb s _).
Qed.

Lemma personality_scalar_floor (personality : string) :
  (0.8 <= personality_scalar personality <= 1.1)%Q.
Proof.
  unfold personality_scalar.
  repeat destruct (String.eqb personality _); lra.
Qed.

(** X13: on a readable card the Fallback Evaluator returns a score between
    22 and 100 for every personality: the least rules score is 40 times 0.8
    and the noise takes at most 10, so the lower clip at 0 never applies. *)
Theorem fallback_floor (E : Env) (card : gmap string pyval)
    (personality : string) (w : World) :
  readable card → (0 <= py_random E (py_cursor w) < 1)%Q →
  ∃ v, (_fallback_evaluation E card personality w).1 = Ok v ∧
       (22 <= v <= 100)%Q.
Proof.
  intros Hcard Hr.
  destruct (fallback_rules_readable card personality Hcard)
    as (tl & ot & cb & rb & _ & _ & Hcb & Hrb & Hrules).
  rewrite fallback_run, Hrules. eexists. split; [reflexivity |].
  pose proof (random_uniform_range (-10) 10 _ ltac:(lra) Hr) as Hnoise.
  set (noise := random_uniform (-10) 10 (py_random E (py_cursor w))) in *.
  pose proof (rarity_base_floor (get card "rarity" (VStr "common"))) as Hbase.
  pose proof (personality_scalar_floor personality) as Hs.
  set (base := rarity_base (get card "rarity" (VStr "common"))) in *.
  set (s := personality_scalar personality) in *.
  assert (0 <= cb)%Z by (destruct Hcb as [[_ ->]|[_ ->]]; lia).
  assert (0 <= rb)%Z by (destruct Hrb as [[_ ->]|[_ ->]]; lia).
  assert (40 <= inject_Z (base + cb + rb))%Q as Hn.
  { change 40%Q with (inject_Z 40). rewrite <- Zle_Qle. lia. }
  set (n := inject_Z (base + cb + rb)) in *.
  assert (0 <= (n - 40) * s)%Q by (apply Qmult_le_0_compat; lra).
  assert (32 <= n * s)%Q by lra.
  split; [|apply np_clip_range].
  unfold np_clip.
  apply Q.min_glb; [|lra].
  apply Qle_trans with (n * s + noise)%Q; [lra | apply Q.le_max_l].
Qed.

Lemma fallback_floor_witness :
  ∃ v, (_fallback_evaluation Examples.bare Examples.bolt "bronze"
          Examples.fresh).1 = Ok v ∧ (22 <= v <= 100)%Q.
Proof.
  apply (fallback_floor Examples.bare Examples.bolt "bronze" Examples.fresh).
  - repeat split; try reflexivity; eexists; reflexivity.
  - vm_compute. split; [discriminate | reflexivity].
Defined.

(** ** Letter case *)

Lemma get_insert (card : gmap string pyval) (key : string) (v dflt : pyval) :
  get (<[key := v]> card) key dflt = v.
Proof. unfold get. by rewrite lookup_insert_eq. Qed.

Lemma get_insert_ne (card : gmap string pyval) (key key' : string)
    (v dflt : pyval) :
  key ≠ key' → get (<[key := v]> card) key' dflt = get card key' dflt.
Proof. intros H. unfold get. by rewrite lookup_insert_ne. Qed.

(** X14: the letter case of the type line and of the ability text never
    matters: two type lines that read the same in lower case give the same
    feature vector and the same rules score, and so do two such ability
    texts for the rules score. *)
Theorem letter_case_ignored (E : Env) (card : gmap string pyval)
    (personality : string) (s t : string) :
  lower s = lower t →
  extract_features E (<["type_line" := VStr s]> card)
  = extract_features E (<["type_line" := VStr t]> card) ∧
  fallback_rules (<["type_line" := VStr s]> card) personality
  = fallback_rules (<["type_line" := VStr t]> card) personality ∧
  fallback_rules (<["oracle_text" := VStr s]> card) personality
  = fallback_rules (<["oracle_text" := VStr t]> card) personality.
Proof.
  intros H. unfold extract_features, fallback_rules.
  rewrite !get_insert, !get_insert_ne by done. simpl. by rewrite H.
Qed.

Lemma letter_case_ignored_witness :
  extract_features Examples.bare (<["type_line" := VStr "CREATURE"]> Examples.bolt)
  = extract_features Examples.bare (<["type_line" := VStr "Creature"]> Examples.bolt).
Proof.
  apply (letter_case_ignored Examples.bare Examples.bolt "gold"
           "CREATURE" "Creature").
  reflexivity.
Defined.

(** ** From the training script to the service *)

Lemma length_append (a b : string) :
  String.length (a ++ b) = (String.length a + String.length b)%nat.
Proof.
  induction a as [|c a IH]; [done |].
  rewrite append_cons. simpl. by rewrite IH.
Qed.

Lemma append_inv_suffix (a b s : string) : a ++ s = b ++ s → a = b.
Proof.
  revert b. induction a as [|c a IH]; intros [|d b] H.
  - done.
  - apply (f_equal String.length) in H.
    rewrite append_cons in H. simpl in H. do 2 rewrite length_append in H.
    simpl in H. exfalso. lia.
  - apply (f_equal String.length) in H.
    rewrite append_cons in H. simpl in H. do 2 rewrite length_append in H.
    simpl in H. exfalso. lia.
  - rewrite !append_cons in H. injection H as -> H. f_equal. by apply IH.
Qed.

Lemma slashless_app (a b : string) :
  slashless (a ++ b) = slashless a && slashless b.
Proof.
  induction a as [|c a IH]; [done |].
  rewrite append_cons. simpl. rewrite IH. by destruct (Ascii.eqb c "/").
Qed.

(** A text without a slash is split into itself. *)
Lemma split_slashless (s : string) :
  slashless s = true → Pathlib.split "/" s = [s].
Proof.
  induction s as [|c s IH]; [done |]. simpl.
  destruct (Ascii.eqb c "/"); [done |]. simpl. intros H. by rewrite IH.
Qed.

(** The file name of a bot id without a slash is one component of the
    path, as it stands. *)
Lemma pickle_name_component (dir : Pathlib.path) (id : string) :
  slashless id = true →
  Pathlib.joinpath dir (id ++ "_bot.pkl")
  = {| Pathlib.anchored := Pathlib.anchored dir;
       Pathlib.parts := Pathlib.parts dir ++ [id ++ "_bot.pkl"] |}.
Proof.
  intros H. unfold Pathlib.joinpath, Pathlib.components.
  rewrite split_slashless by (by rewrite slashless_app, H).
  assert (String.prefix "/" (id ++ "_bot.pkl") = false) as ->.
  { destruct id as [|c id]; [reflexivity |]. rewrite append_cons.
    change (String.prefix "/" (String c (id ++ "_bot.pkl")))
      with (if ascii_dec "/" c then String.prefix "" (id ++ "_bot.pkl")
            else false).
    destruct (ascii_dec "/" c) as [<-|Hc]; [|done].
    simpl in H. discriminate H. }
  assert (String.eqb (id ++ "_bot.pkl") "" = false) as Hempty.
  { apply String.eqb_neq. intros He. apply (f_equal String.length) in He.
    rewrite length_append in He. simpl in He. lia. }
  assert (String.eqb (id ++ "_bot.pkl") "." = false) as Hdot.
  { apply String.eqb_neq. intros He. apply (f_equal String.length) in He.
    rewrite length_append in He. simpl in He. lia. }
  simpl. by rewrite Hempty, Hdot.
Qed.

Lemma metadata_component (dir : Pathlib.path) :
  Pathlib.joinpath dir "metadata.json"
  = {| Pathlib.anchored := Pathlib.anchored dir;
       Pathlib.parts := Pathlib.parts dir ++ ["metadata.json"] |}.
Proof. reflexivity. Qed.

(** Two bot ids without a slash are pickled to the same file only when they
    are equal, and no such bot id is pickled to metadata.json. *)
Lemma pickle_path_inj (dir : Pathlib.path) (id id' : string) :
  slashless id = true → slashless id' = true →
  Pathlib.joinpath dir (id ++ "_bot.pkl")
  = Pathlib.joinpath dir (id' ++ "_bot.pkl") →
  id = id'.
Proof.
  intros Hs Hs'. rewrite !pickle_name_component by done.
  intros [= H]. apply app_inv_head in H. injection H as H.
  by apply append_inv_suffix in H.
Qed.

Lemma pickle_path_not_metadata (dir : Pathlib.path) (id : string) :
  slashless id = true →
  Pathlib.joinpath dir "metadata.json"
  ≠ Pathlib.joinpath dir (id ++ "_bot.pkl").
Proof.
  intros Hs. rewrite metadata_component, pickle_name_component by done.
  intros [= H]. apply app_inv_head in H. injection H as H.
  pose proof (f_equal String.length H) as Hlen.
  rewrite length_append in Hlen. simpl in Hlen.
  destruct id as [|c1 [|c2 [|c3 [|c4 [|c5 [|c6 id]]]]]];
    simpl in Hlen; try lia.
  rewrite !append_cons in H. discriminate H.
Qed.

Lemma write_eq (path : Pathlib.path) (content : file)
    (d : Pathlib.path → file) :
  Training.write path content d path = content.
Proof. unfold Training.write. by rewrite bool_decide_eq_true_2. Qed.

Lemma write_ne (path path' : Pathlib.path) (content : file)
    (d : Pathlib.path → file) :
  path ≠ path' → Training.write path content d path' = d path'.
Proof.
  intros H. unfold Training.write. by rewrite bool_decide_eq_false_2.
Qed.

Lemma pickled_other (dir : Pathlib.path) (id : string)
    (items : list (string * Artifact)) :
  ∀ d : Pathlib.path → file,
    slashless id = true →
    Forall (λ i, slashless i = true) items.*1 →
    id ∉ items.*1 →
    fold_left
      (λ d (item : string * Artifact),
         let model_path := Pathlib.joinpath dir (item.1 ++ "_bot.pkl") in
         Training.write model_path (Pickled item.2) d)
      items d (Pathlib.joinpath dir (id ++ "_bot.pkl"))
    = d (Pathlib.joinpath dir (id ++ "_bot.pkl")).
Proof.
  induction items as [|[i a] items IH]; intros d Hs Hall Hid; simpl; [done |].
  rewrite fmap_cons in Hall, Hid. apply Forall_cons in Hall as [Hi Hall].
  apply not_elem_of_cons in Hid as [Hne Hid].
  rewrite IH by done. apply write_ne. intros H.
  apply pickle_path_inj in H; [by subst | done | done].
Qed.

Lemma pickled_lookup (dir : Pathlib.path) (id : string) (a : Artifact)
    (items : list (string * Artifact)) :
  ∀ d : Pathlib.path → file,
    NoDup items.*1 →
    Forall (λ i, slashless i = true) items.*1 →
    (id, a) ∈ items →
    fold_left
      (λ d (item : string * Artifact),
         let model_path := Pathlib.joinpath dir (item.1 ++ "_bot.pkl") in
         Training.write model_path (Pickled item.2) d)
      items d (Pathlib.joinpath dir (id ++ "_bot.pkl"))
    = Pickled a.
Proof.
  induction items as [|[i b] items IH]; intros d Hnd Hall Hin; simpl.
  - by apply elem_of_nil in Hin.
  - rewrite fmap_cons in Hnd, Hall. apply NoDup_cons in Hnd as [Hi Hnd].
    apply Forall_cons in Hall as [Hs Hall].
    apply elem_of_cons in Hin as [[= -> ->]|Hin].
    + rewrite pickled_other by done. apply write_eq.
    + by apply IH.
Qed.


(** What save_models leaves at the path load_bot_model reads. *)
Lemma save_models_path (personalities : list (string * Artifact))
    (set_code set_code' id id0 : string) (d : Pathlib.path → file) :
  lower set_code' = lower set_code →
  slashless id0 = true →
  model_path set_code id = model_path set_code id0 →
  Training.save_models personalities set_code d (model_path set_code' id)
  = fold_left
      (λ d (item : string * Artifact),
         let model_path :=
           Pathlib.joinpath
             (Pathlib.joinpath Pathlib.MODELS_DIR (lower set_code))
             (item.1 ++ "_bot.pkl") in
         Training.write model_path (Pickled item.2) d)
      personalities d
      (Pathlib.joinpath (Pathlib.joinpath Pathlib.MODELS_DIR (lower set_code))
         (id0 ++ "_bot.pkl")).
Proof.
  intros Hlow Hs Hpath. unfold Training.save_models.
  assert (model_path set_code' id = model_path set_code id0) as ->.
  { rewrite <- Hpath. unfold model_path. by rewrite Hlow. }
  unfold model_path. by apply write_ne, pickle_path_not_metadata.
Qed.



Lemma trained_ids (personality : string) (cfg : Config) :
  BOT_PERSONALITIES !! personality = Some cfg →
  (personality, cfg) ∈ Training.BOT_PERSONALITIES.
Proof.
  unfold BOT_PERSONALITIES. simpl.
  destruct (String.eqb_spec personality "bronze") as [->|?];
    [rewrite lookup_insert_eq; intros [= <-]; left |
     rewrite lookup_insert_ne by done].
  destruct (String.eqb_spec personality "silver") as [->|?];
    [rewrite lookup_insert_eq; intros [= <-]; right; left |
     rewrite lookup_insert_ne by done].
  destruct (String.eqb_spec personality "gold") as [->|?];
    [rewrite lookup_insert_eq; intros [= <-]; do 2 right; left |
     rewrite lookup_insert_ne by done].
  destruct (String.eqb_spec personality "mythic") as [->|?];
    [rewrite lookup_insert_eq; intros [= <-]; do 3 right; left |
     rewrite lookup_insert_ne by done].
  by rewrite lookup_empty.
Qed.

(** X16: the training script and the service agree on the profiles.  After
    create_bot_personalities and save_models for a set, every personality of
    the service's own table loads, under every spelling of the set code, an
    artifact that holds the trained model and scaler and, as its config, the
    very profile the service's table has for that personality: the adjuster
    and the selector work with the same skill. *)
Theorem trained_profiles_load (E : Env)
    (model : list (list Q) → result (list Q))
    (scale : list (list Q) → result (list (list Q)))
    (fitted_on : list string) (set_code set_code' personality : string)
    (cfg : Config) (w : World) :
  BOT_PERSONALITIES !! personality = Some cfg →
  lower set_code' = lower set_code →
  load_bot_model
    (Training.with_disk E
       (Training.save_models
          (Training.create_bot_personalities model scale fitted_on set_code)
          set_code (disk E)))
    set_code' personality w
  = (Ok true,
     store w set_code' personality
       {| keys := Ok tt; base_model := model; scaler := scale; config := cfg;
          feature_order := fitted_on |}).
Proof.
  intros Hcfg Hlow. apply trained_ids in Hcfg.
  assert ((personality,
           {| keys := Ok tt; base_model := model; scaler := scale;
              config := cfg; feature_order := fitted_on |})
          ∈ Training.create_bot_personalities model scale fitted_on set_code)
    as Hin.
  { unfold Training.create_bot_personalities.
    apply (list_elem_of_fmap_2
             (λ entry : string * Config,
                (entry.1,
                 {| keys := Ok tt; base_model := model; scaler := scale;
                    config := entry.2; feature_order := fitted_on |}))
             _ (personality, cfg)).
    done. }
  assert (Forall (λ i, slashless i = true)
            (Training.create_bot_personalities model scale fitted_on
               set_code).*1) as Hall.
  { by repeat constructor. }
  assert (slashless personality = true) as Hs.
  { rewrite Forall_forall in Hall. apply Hall.
    by apply (list_elem_of_fmap_2 fst _ _ Hin). }
  unfold load_bot_model. simpl.
  rewrite (save_models_path _ _ _ personality personality _ Hlow Hs eq_refl).
  assert (NoDup (Training.create_bot_personalities model scale fitted_on
                   set_code).*1) as Hnd.
  { by apply (bool_decide_unpack _). }
  by rewrite (pickled_lookup _ personality _ _ _ Hnd Hall Hin).
Qed.

Lemma trained_profiles_load_witness :
  cached
    (load_bot_model
       (Training.with_disk Examples.bare
          (Training.save_models
             (Training.create_bot_personalities (base_model Examples.wild)
                (scaler Examples.wild) FEATURE_ORDER "DTK")
             "DTK" (disk Examples.bare)))
       "dtk" "mythic" Examples.fresh).2 "dtk" "mythic"
  = Some {| keys := Ok tt; base_model := base_model Examples.wild;
            scaler := scaler Examples.wild; config := mythic;
            feature_order := FEATURE_ORDER |}.
Proof.
  rewrite (trained_profiles_load Examples.bare (base_model Examples.wild)
             (scaler Examples.wild) FEATURE_ORDER "DTK" "dtk" "mythic" mythic
             Examples.fresh eq_refl eq_refl).
  apply cached_store.
Defined.

Lemma extract_features_row (E : Env) (card : gmap string pyval)
    (v : list (list Q)) :
  extract_features E card = Ok v → ∃ row, v = [row] ∧ length row = 11%nat.
Proof.
  unfold extract_features. intros H.
  apply bind_ok in H as (cmc & _ & H).
  apply bind_ok in H as (tl & _ & H).
  apply bind_ok in H as (rs & _ & H).
  apply bind_ok in H as (pw & _ & H).
  apply bind_ok in H as (tg & _ & H).
  injection H as <-. by eexists.
Qed.

(** X17: the row of the Feature Extractor has as many components as the
    training matrix has columns exactly when the merged training frame has
    no pick_rating column; with 17lands pick ratings the matrix has two
    columns more, pick_rate and win_rate_delta, which the extractor never
    fills. *)
Theorem feature_columns_match (E : Env) (card : gmap string pyval)
    (v : list (list Q)) (columns : list string) :
  extract_features E card = Ok v →
  ∀ row, row ∈ v →
    (length row = length (Training.feature_cols columns)
     ↔ "pick_rating" ∉ columns) ∧
    ("pick_rating" ∉ columns → Training.feature_cols columns = FEATURE_ORDER) ∧
    ("pick_rating" ∈ columns →
     Training.feature_cols columns
     = (FEATURE_ORDER ++ ["pick_rate"; "win_rate_delta"])%list).
Proof.
  intros H row Hrow.
  apply extract_features_row in H as (row' & -> & Hlen).
  apply list_elem_of_singleton in Hrow as ->.
  unfold Training.feature_cols.
  destruct (existsb (String.eqb "pick_rating") columns) eqn:Hex.
  - apply existsb_exists in Hex as (c & Hin & ->%String.eqb_eq).
    apply list_elem_of_In in Hin.
    split_and!; [|done | done].
    rewrite Hlen. simpl. split; [lia | done].
  - assert ("pick_rating" ∉ columns) as Hnot.
    { intros Hin. apply list_elem_of_In in Hin.
      assert (existsb (String.eqb "pick_rating") columns = true) as Ht.
      { apply existsb_exists. exists "pick_rating". split; [done |].
        apply String.eqb_refl. }
      congruence. }
    split_and!; [|done | done].
    rewrite Hlen. simpl. done.
Qed.

Lemma feature_columns_match_witness :
  length (Training.feature_cols ["name"; "cmc"; "pick_rating"]) = 13%nat ∧
  ¬ (11 = length (Training.feature_cols ["name"; "cmc"; "pick_rating"]))%nat.
Proof.
  split; [reflexivity |].
  destruct (feature_columns_match Examples.bare Examples.elf
              [[3; 1; 0; 0; 0; 0; 0; 3; 2; 0; 1]]%Q
              ["name"; "cmc"; "pick_rating"] eq_refl
              [3; 1; 0; 0; 0; 0; 0; 3; 2; 0; 1]%Q ltac:(left))
    as ([Hiff _] & _ & _).
  intros Hlen. apply Hiff in Hlen. apply Hlen.
  by apply (bool_decide_unpack _).
Defined.

(** ** The attributes a score depends on *)

Lemma extract_features_frame (E : Env) (card : gmap string pyval)
    (key : string) (v : pyval) :
  key ∉ ["cmc"; "type_line"; "rarity"; "power"; "toughness"; "color_identity"] →
  extract_features E (<[key := v]> card) = extract_features E card.
Proof.
  intros H. repeat (apply not_elem_of_cons in H as [? H]).
  unfold extract_features. by rewrite !get_insert_ne by done.
Qed.

Lemma fallback_rules_frame (card : gmap string pyval) (personality : string)
    (key : string) (v : pyval) :
  key ∉ ["rarity"; "type_line"; "oracle_text"] →
  fallback_rules (<[key := v]> card) personality = fallback_rules card personality.
Proof.
  intros H. repeat (apply not_elem_of_cons in H as [? H]).
  unfold fallback_rules. by rewrite !get_insert_ne by done.
Qed.

(** X18: the path with a model reads six attributes of the card and no
    other: cost, type line, rarity, power, toughness and color identity.
    The ability text, the name and whatever else the card carries never
    change its result.  The Fallback Evaluator reads three: rarity, type
    line and ability text; cost, stats and colors never change its result. *)
Theorem attributes_read (E : Env) (a : Artifact) (card : gmap string pyval)
    (context : option (gmap string pyval)) (personality key : string)
    (v : pyval) (w : World) :
  (key ∉ ["cmc"; "type_line"; "rarity"; "power"; "toughness"; "color_identity"] →
   predict_with_model E a (<[key := v]> card) context w
   = predict_with_model E a card context w) ∧
  (key ∉ ["rarity"; "type_line"; "oracle_text"] →
   _fallback_evaluation E (<[key := v]> card) personality w
   = _fallback_evaluation E card personality w).
Proof.
  split; intros H.
  - unfold predict_with_model. rewrite (extract_features_frame _ _ _ _ H).
    repeat (apply not_elem_of_cons in H as [? H]).
    unfold _apply_personality, rare_or_mythic, commitment_bonus.
    by rewrite !get_insert_ne by done.
  - unfold _fallback_evaluation. by rewrite (fallback_rules_frame _ _ _ _ H).
Qed.

Lemma attributes_read_witness :
  predict_with_model Examples.bare Examples.wild
    (<["oracle_text" := VStr "Draw a card."]> Examples.elf) Examples.green
    Examples.fresh
  = predict_with_model Examples.bare Examples.wild Examples.elf Examples.green
      Examples.fresh ∧
  _fallback_evaluation Examples.bare (<["cmc" := VInt 9]> Examples.elf) "gold"
    Examples.fresh
  = _fallback_evaluation Examples.bare Examples.elf "gold" Examples.fresh.
Proof.
  split.
  - apply (attributes_read Examples.bare Examples.wild Examples.elf
             Examples.green "gold" "oracle_text").
    apply (bool_decide_unpack _). vm_compute. reflexivity.
  - apply (attributes_read Examples.bare Examples.wild Examples.elf
             Examples.green "gold" "cmc").
    apply (bool_decide_unpack _). vm_compute. reflexivity.
Defined.

(** ** Committed colors that are not a set *)

Lemma lookup_size (ctx : gmap string pyval) (key : string) (v : pyval) :
  ctx !! key = Some v → (size ctx =? 0)%nat = false.
Proof.
  intros H. destruct (size ctx =? 0)%nat eqn:Hsize; [|done].
  by rewrite (size_zero_empty _ _ Hsize) in H.
Qed.

(** X19: the adjuster accepts less than the extractor.  With a profile whose
    randomness is not negative and a context that holds picked colors:
    when the picked colors are a non-empty value that is not a set (a list
    of colors, say) and the card has a color, the adjuster raises
    AttributeError; when the color identity of the card is None or a number,
    which the extractor counts as no color, the adjuster raises TypeError.
    In both cases the normal draw has been made by then. *)
Theorem commitment_needs_sets (E : Env) (base_score : Q)
    (card ctx : gmap string pyval) (config : Config) (picked : pyval)
    (w : World) :
  (0 <= randomness config)%Q →
  ctx !! "picked_colors" = Some picked →
  (truthy picked = true → (∀ s, picked ≠ VSet s) →
   ∀ colors, set_of (get card "color_identity" (VList [])) = Ok colors →
             colors ≠ [] →
   _apply_personality E base_score card config (Some ctx) w
   = (Raise AttributeError, drawn w)) ∧
  (∀ c, card !! "color_identity" = Some c →
        match c with
        | VNone | VBool _ | VInt _ | VFloat _ => True
        | _ => False
        end →
   len_if_list (get card "color_identity" (VList [])) = 0%nat ∧
   _apply_personality E base_score card config (Some ctx) w
   = (Raise TypeError, drawn w)).
Proof.
  intros Hrand Hctx.
  assert (_apply_personality E base_score card config (Some ctx) w
          = ((bonus ← commitment_bonus card config (Some ctx);
              Ok ((if rare_or_mythic card
                   then (base_score
                         + (100 - base_score) * (1 - skill_level config) * 0.3)
                        * rare_bias config
                   else base_score
                        + (100 - base_score) * (1 - skill_level config) * 0.3)
                  + (0 + randomness config * 20 * np_normal E (np_cursor w))
                  + bonus)%Q), drawn w)) as ->.
  { rewrite apply_personality_unfold.
    destruct (Qlt_le_dec (randomness config * 20) 0); [lra | done]. }
  unfold commitment_bonus. rewrite (lookup_size _ _ _ Hctx), Hctx. simpl.
  split.
  - intros Htruthy Hset colors -> Hcolors. simpl. rewrite Htruthy.
    destruct colors as [|c colors]; [done |]. simpl.
    destruct picked; try done. by destruct (Hset l).
  - intros c Hc Hkind. unfold get. rewrite Hc. by destruct c.
Qed.

Lemma commitment_needs_sets_witness :
  _apply_personality Examples.bare 50 Examples.elf silver
    (Some {[ "picked_colors" := VList [VStr "G"] ]}) Examples.fresh
  = (Raise AttributeError, drawn Examples.fresh).
Proof.
  apply (proj1 (commitment_needs_sets Examples.bare 50 Examples.elf
                  {[ "picked_colors" := VList [VStr "G"] ]} silver
                  (VList [VStr "G"]) Examples.fresh
                  ltac:(vm_compute; discriminate) eq_refl)
           eq_refl ltac:(discriminate) [VStr "G"] eq_refl ltac:(discriminate)).
Defined.

(** ** The scores of a ranking *)

Lemma predict_ok_range (E : Env) (card : gmap string pyval)
    (set_code personality : string) (context : option (gmap string pyval))
    (w w' : World) (v : Q) :
  predict_pick_value E card set_code personality context w = (Ok v, w') →
  (0 <= v <= 100)%Q.
Proof.
  intros H. destruct (cached w set_code personality) as [a|] eqn:Hc.
  - rewrite (predict_hit _ _ _ _ _ _ _ Hc) in H.
    by eapply predict_with_model_range.
  - destruct (disk E (model_path set_code personality)) as [| |a] eqn:Hd.
    + rewrite (predict_missing _ _ _ _ _ _ Hc Hd) in H.
      by eapply fallback_range.
    + rewrite (predict_unreadable _ _ _ _ _ _ Hc Hd) in H.
      by eapply fallback_range.
    + rewrite (predict_load _ _ _ _ _ _ _ Hc Hd) in H.
      by eapply predict_with_model_range.
Qed.

(** X20: every entry of a ranking that returns pairs an index of the
    candidate list with a score between 0 and 100, whichever way the
    candidates were scored. *)
Theorem rankings_scores_in_range (E : Env) (cards : list (gmap string pyval))
    (set_code personality : string) (context : option (gmap string pyval))
    (w w' : World) (rankings : list (nat * Q)) :
  get_pick_rankings E cards set_code personality context w = (Ok rankings, w') →
  ∀ i s, (i, s) ∈ rankings → (i < length cards)%nat ∧ (0 <= s <= 100)%Q.
Proof.
  unfold get_pick_rankings. intros H i s Hin.
  apply bind_run_ok in H as (scored & w1 & Hscored & H).
  injection H as <- _. rewrite sort_by_reverse_perm in Hin.
  destruct (rank_from_scored _ _ _ _ _ _ _ _ _ Hscored) as [_ Hsc].
  destruct (Hsc _ _ Hin) as (card & wa & wb & _ & Hcard & Hp).
  split.
  - apply lookup_lt_Some in Hcard. lia.
  - by eapply predict_ok_range.
Qed.

Lemma rankings_scores_in_range_witness :
  (1 < 2)%nat ∧ (0 <= 100 <= 100)%Q.
Proof.
  eapply (rankings_scores_in_range Examples.stocked
            [Examples.bolt; Examples.elf] "DTK" "gold" None Examples.fresh _
            (sort_by_reverse snd [(0%nat, 100%Q); (1%nat, 100%Q)])).
  - vm_compute. reflexivity.
  - vm_compute. apply list_elem_of_In. simpl. tauto.
Defined.

(** ** A model file that holds something else *)

Lemma predict_with_model_unfit (E : Env) (a : Artifact)
    (card : gmap string pyval) (context : option (gmap string pyval))
    (w : World) (e : exn) :
  keys a = Raise e → predict_with_model E a card context w = (Raise e, w).
Proof. intros H. unfold predict_with_model. by rewrite run_lift_bind, H. Qed.

(** X21: a model file that unpickles to something else than an artifact
    dictionary is taken for a model.  load_bot_model returns True and caches
    the object.  The first prediction for the key, which loads it, raises
    what the subscripts of lines 125-127 raise, for every card; so does
    every later prediction for the key, whatever the models directory holds
    by then, without a draw, without reading the file again and without
    falling back to the rules. *)
Theorem unfit_pickle_raises (E : Env) (set_code personality : string)
    (w : World) (a : Artifact) (e : exn) :
  cached w set_code personality = None →
  disk E (model_path set_code personality) = Pickled a →
  keys a = Raise e →
  load_bot_model E set_code personality w
  = (Ok true, store w set_code personality a) ∧
  ∀ card context,
    predict_pick_value E card set_code personality context w
    = (Raise e, store w set_code personality a) ∧
    ∀ E' card' context',
      predict_pick_value E' card' set_code personality context'
        (store w set_code personality a)
      = (Raise e, store w set_code personality a).
Proof.
  intros Hc Hd Hk. split.
  - unfold load_bot_model. by rewrite Hd.
  - intros card context. split.
    + rewrite (predict_load _ _ _ _ _ _ _ Hc Hd).
      by apply predict_with_model_unfit.
    + intros E' card' context'.
      rewrite (predict_hit _ _ _ _ _ _ a (cached_store _ _ _ _)).
      by apply predict_with_model_unfit.
Qed.

Lemma unfit_pickle_raises_witness :
  let other :=
    {| keys := Raise TypeError;
       base_model := base_model Examples.wild; scaler := scaler Examples.wild;
       config := gold; feature_order := FEATURE_ORDER |} in
  let E := Training.with_disk Examples.bare (λ _, Pickled other) in
  (predict_pick_value E Examples.elf "DTK" "gold" None Examples.fresh).1
  = Raise TypeError ∧
  (predict_pick_value Examples.bare Examples.bolt "DTK" "gold" None
     (store Examples.fresh "DTK" "gold" other)).1
  = Raise TypeError.
Proof.
  intros other E.
  destruct (unfit_pickle_raises E "DTK" "gold" Examples.fresh other TypeError
              eq_refl eq_refl eq_refl) as [_ H].
  destruct (H Examples.elf None) as [-> Hlater].
  by rewrite (Hlater Examples.bare Examples.bolt None).
Defined.
